(** * 340B compliance risk analyzer: a shallow embedding of [app.py]

    The development follows the source file top to bottom: the Python
    values the program manipulates (text, numbers, insertion-ordered
    dictionaries, exceptions), then [parse_csv_metrics],
    [evaluate_risk_level], the five graph nodes and the linear workflow,
    and finally the properties of the specification.

    [print] calls only write to standard output and are left out. *)

From Stdlib Require Import String Ascii.
From Stdlib Require Import List ZArith NArith Lia Bool SpecFloat.
Import ListNotations.

(** ** Python text

    A Python [str] is a sequence of Unicode code points; slicing, [len],
    [split] and [strip] all count code points, so the model is a list of
    code points and not a list of bytes. *)

Module PyStr.

Definition char := N.
Definition str := list char.

Local Open Scope N_scope.

(** Source literals.  The source file is UTF-8; [u] decodes the bytes of
    a literal of the source into its code points. *)
Fixpoint bytes_of (s : string) : list N :=
  match s with
  | EmptyString => []
  | String a r => N_of_ascii a :: bytes_of r
  end.

Fixpoint utf8_decode (l : list N) : str :=
  match l with
  | [] => []
  | b :: r =>
      if b <? 128 then b :: utf8_decode r
      else if b <? 224 then
        match r with
        | b2 :: r' => ((b - 192) * 64 + (b2 - 128)) :: utf8_decode r'
        | _ => []
        end
      else if b <? 240 then
        match r with
        | b2 :: b3 :: r' =>
            ((b - 224) * 4096 + (b2 - 128) * 64 + (b3 - 128)) :: utf8_decode r'
        | _ => []
        end
      else
        match r with
        | b2 :: b3 :: b4 :: r' =>
            ((b - 240) * 262144 + (b2 - 128) * 4096 + (b3 - 128) * 64 + (b4 - 128))
              :: utf8_decode r'
        | _ => []
        end
  end.

Definition u (s : string) : str := utf8_decode (bytes_of s).

(** [s1 == s2] *)
Fixpoint eqb (s t : str) : bool :=
  match s, t with
  | [], [] => true
  | a :: s', b :: t' => (a =? b) && eqb s' t'
  | _, _ => false
  end.

(** [str.isspace] on one code point: the code points whose general
    category is Zs or whose bidirectional class is WS, B or S. *)
Definition isspace (c : char) : bool :=
  ((9 <=? c) && (c <=? 13)) || ((28 <=? c) && (c <=? 32))
  || (c =? 133) || (c =? 160) || (c =? 5760)
  || ((8192 <=? c) && (c <=? 8202))
  || (c =? 8232) || (c =? 8233) || (c =? 8239) || (c =? 8287) || (c =? 12288).

Fixpoint lstrip (s : str) : str :=
  match s with
  | [] => []
  | c :: s' => if isspace c then lstrip s' else s
  end.

Definition rstrip (s : str) : str := rev (lstrip (rev s)).

(** [s.strip()] *)
Definition strip (s : str) : str := rstrip (lstrip s).

(** [s.startswith(p)] *)
Fixpoint startswith (s p : str) {struct p} : bool :=
  match p, s with
  | [], _ => true
  | a :: p', b :: s' => (a =? b) && startswith s' p'
  | _ :: _, [] => false
  end.

(** [sub in s] *)
Fixpoint contains (sub s : str) : bool :=
  startswith s sub ||
  match s with
  | [] => false
  | _ :: s' => contains sub s'
  end.

(** [s.split(sep)] for a non-empty separator: the pieces between the
    non-overlapping occurrences of [sep], found from the left.  [skip]
    counts the code points of a matched separator still to be passed,
    [cur] holds the current piece in reverse. *)
Fixpoint split_go (sep : str) (skip : nat) (cur : str) (s : str) : list str :=
  match s with
  | [] => [rev cur]
  | c :: s' =>
      match skip with
      | S k => split_go sep k cur s'
      | O =>
          if startswith s sep
          then rev cur :: split_go sep (length sep - 1) [] s'
          else split_go sep 0 (c :: cur) s'
      end
  end.

Definition split (s sep : str) : list str := split_go sep 0 [] s.

(** [sep.join(parts)] *)
Fixpoint join (sep : str) (parts : list str) : str :=
  match parts with
  | [] => []
  | [p] => p
  | p :: rest => p ++ sep ++ join sep rest
  end.

(** [s.replace(a, b)] for one-character [a] and [b] *)
Definition replace1 (a b : char) (s : str) : str :=
  map (fun c => if c =? a then b else c) s.

(** [c * n] for a one-character string [c] *)
Definition times (c : char) (n : nat) : str := repeat c n.

Definition is_ascii (c : char) : bool := c <? 128.
Definition is_upper (c : char) : bool := (65 <=? c) && (c <=? 90).
Definition is_lower (c : char) : bool := (97 <=? c) && (c <=? 122).
Definition to_lower (c : char) : char := if is_upper c then c + 32 else c.
Definition to_upper (c : char) : char := if is_lower c then c - 32 else c.

(** [str.title] on ASCII text: a letter that follows a letter is
    lower-cased, any other letter is upper-cased. *)
Fixpoint ascii_title_go (previous_is_cased : bool) (s : str) : str :=
  match s with
  | [] => []
  | c :: s' =>
      (if previous_is_cased then to_lower c else to_upper c)
        :: ascii_title_go (is_upper c || is_lower c) s'
  end.

(** [str(n)] for a non-negative [int] *)
Definition digit_char (d : N) : char := 48 + d.

Fixpoint decimal_go (fuel : nat) (n : N) (acc : str) : str :=
  match fuel with
  | O => acc
  | S f =>
      let acc' := digit_char (n mod 10) :: acc in
      if n <? 10 then acc' else decimal_go f (n / 10) acc'
  end.

Definition of_nat (n : nat) : str :=
  decimal_go (S n) (N.of_nat n) [].

End PyStr.

Import PyStr.

(** ** Python numbers

    A metric value is annotated [float] and is an [int] when it comes from
    [parse_csv_metrics]; both are kept.  A [float] is an IEEE 754 binary64
    value ([spec_float]); comparisons between [int] and [float] are exact
    in Python, so every number that is not NaN is compared through its
    exact value [m * 2^e]. *)

Module PyNum.

Inductive pynum :=
| PyInt (z : Z)
| PyFloat (f : spec_float).

(** [float('inf')] *)
Definition inf : pynum := PyFloat (S754_infinity false).
(** [float('nan')] *)
Definition nan : pynum := PyFloat S754_nan.

Inductive exact :=
| NegInf
| Dyadic (m e : Z)
| PosInf.

Definition exact_of_float (f : spec_float) : option exact :=
  match f with
  | S754_nan => None
  | S754_infinity s => Some (if s then NegInf else PosInf)
  | S754_zero _ => Some (Dyadic 0 0)
  | S754_finite s m e => Some (Dyadic (if s then Zneg m else Zpos m) e)
  end.

Definition exact_of (v : pynum) : option exact :=
  match v with
  | PyInt z => Some (Dyadic z 0)
  | PyFloat f => exact_of_float f
  end.

Definition exact_compare (a b : exact) : comparison :=
  match a, b with
  | NegInf, NegInf => Eq
  | NegInf, _ => Lt
  | _, NegInf => Gt
  | PosInf, PosInf => Eq
  | PosInf, _ => Gt
  | _, PosInf => Lt
  | Dyadic m1 e1, Dyadic m2 e2 =>
      let e := Z.min e1 e2 in
      Z.compare (m1 * 2 ^ (e1 - e)) (m2 * 2 ^ (e2 - e))
  end.

(** [None] when one side is NaN: every ordered comparison is then false. *)
Definition py_compare (a b : pynum) : option comparison :=
  match exact_of a, exact_of b with
  | Some x, Some y => Some (exact_compare x y)
  | _, _ => None
  end.

(** [a <= b] *)
Definition py_le (a b : pynum) : bool :=
  match py_compare a b with
  | Some Lt | Some Eq => true
  | _ => false
  end.

(** [a < b] *)
Definition py_lt (a b : pynum) : bool :=
  match py_compare a b with
  | Some Lt => true
  | _ => false
  end.

Definition is_nan (v : pynum) : bool :=
  match exact_of v with
  | None => true
  | Some _ => false
  end.

(** [float(z)] for an [int]: round to nearest, ties to even; [None] when
    the result is out of the binary64 range (Python raises OverflowError). *)
Definition float_of_int (z : Z) : option spec_float :=
  match binary_normalize 53 1024 z 0 false with
  | S754_infinity _ => None
  | f => Some f
  end.

End PyNum.

Import PyNum.

(** ** Exceptions

    The exceptions the program's own code can raise, and [result] for a
    computation that returns or raises. *)

Inductive exn :=
| KeyError (key : str)
| IndexError
| ValueError
| ValidationError.

Inductive result (A : Type) :=
| Ok (a : A)
| Raise (e : exn).

Arguments Ok {A} a.
Arguments Raise {A} e.

Definition bind {A B : Type} (m : result A) (k : A -> result B) : result B :=
  match m with
  | Ok a => k a
  | Raise e => Raise e
  end.

Declare Scope py_scope.
Delimit Scope py_scope with py.
Notation "x <- m ;; k" := (bind m (fun x => k))
  (at level 61, m at next level, right associativity) : py_scope.
Notation "' pat <- m ;; k" := (bind m (fun x => match x with pat => k end))
  (at level 61, pat pattern, m at next level, right associativity) : py_scope.
Open Scope py_scope.

(** A [for] loop whose body may raise: the first exception ends the loop. *)
Fixpoint for_each {A S : Type} (body : S -> A -> result S) (l : list A) (s : S)
  : result S :=
  match l with
  | [] => Ok s
  | a :: l' => s' <- body s a ;; for_each body l' s'
  end.

(** [l[i]] *)
Definition getitem {A : Type} (l : list A) (i : nat) : result A :=
  match nth_error l i with
  | Some a => Ok a
  | None => Raise IndexError
  end.

(** What an external service call gives back: its value, or the message
    [str(e)] of the exception it raised. *)
Inductive reply (A : Type) :=
| Returned (a : A)
| Failed (message : str).

Arguments Returned {A} a.
Arguments Failed {A} message.

(** ** Dictionaries

    A [dict] keeps its keys in insertion order and assigning to a key that
    is present keeps the key's place: an association list with one entry
    per key. *)

Definition dict (V : Type) := list (str * V).

Fixpoint dict_get {V : Type} (d : dict V) (k : str) : option V :=
  match d with
  | [] => None
  | (k', v) :: d' => if PyStr.eqb k' k then Some v else dict_get d' k
  end.

(** [d[k] = v] *)
Fixpoint dict_set {V : Type} (d : dict V) (k : str) (v : V) : dict V :=
  match d with
  | [] => [(k, v)]
  | (k', v') :: d' =>
      if PyStr.eqb k' k then (k', v) :: d' else (k', v') :: dict_set d' k v
  end.

(** [d[k]] *)
Definition dict_getitem {V : Type} (d : dict V) (k : str) : result V :=
  match dict_get d k with
  | Some v => Ok v
  | None => Raise (KeyError k)
  end.

(** [d.get(k, default)] *)
Definition dict_get_default {V : Type} (d : dict V) (k : str) (default : V) : V :=
  match dict_get d k with
  | Some v => v
  | None => default
  end.

(** [d.keys()] *)
Definition keys {V : Type} (d : dict V) : list str := map fst d.

(** ** Data models *)

Record RiskEvaluation := {
  metric_name : str;
  customer_id : str;
  value : spec_float;
  risk_level : str;
  threshold_range : str;
  explanation : str
}.

Record CustomerRiskReport := {
  report_customer_id : str;
  risks : list RiskEvaluation;
  high_risk_count : nat;
  medium_risk_count : nat;
  low_risk_count : nat
}.

Record ComplianceState := {
  customer_metrics : dict (dict pynum);
  knowledge_base : str;
  risk_evaluations : list RiskEvaluation;
  customer_reports : list CustomerRiskReport;
  regulatory_updates : str;
  final_report : str
}.

(** ** The interpreter and the libraries

    What the program takes from the Python runtime and its libraries and
    this development does not define: the Unicode tables behind [int],
    [str.lower] and [str.title] outside ASCII, the decimal-digit limit of
    [int], the text of a [float] in an f-string, [json.dumps] of the
    dumped reports and [urllib.parse.quote]. *)

Record Interp := {
  (** decimal value of a code point above ASCII of category Nd *)
  unicode_decimal : char -> option Z;
  (** [sys.get_int_max_str_digits()]; 0 when there is no limit *)
  int_max_str_digits : nat;
  (** [str.lower] and [str.title] on text that is not all ASCII *)
  unicode_lower : str -> str;
  unicode_title : str -> str;
  (** [f"{x}"] for a [float] *)
  float_str : spec_float -> str;
  (** [json.dumps([r.model_dump() for r in reports], indent=2)] *)
  json_dumps : list CustomerRiskReport -> str;
  (** [quote(s)], or the message of the exception it raises *)
  quote : str -> reply str
}.

(** The external services: the DuckDuckGo tool, [requests.get] (status
    code and text of the response), the Bedrock knowledge base (the text
    at [output.text] of the response, when the response has one), the
    chat model (the [content] of its answer) and the output of
    [date -u]. *)

Record Collaborators := {
  search_run : str -> reply str;
  requests_get : str -> reply (Z * str);
  retrieve_and_generate : str -> reply (option str);
  model_invoke : str -> reply str;
  date_u : str
}.

Definition nl : str := [10%N].

(** [s.lower()] *)
Definition lower (py : Interp) (s : str) : str :=
  if forallb is_ascii s then map to_lower s else unicode_lower py s.

(** [s.title()] *)
Definition title (py : Interp) (s : str) : str :=
  if forallb is_ascii s then ascii_title_go false s else unicode_title py s.

(** *** [int(s)]

    Optional blanks, an optional sign, then decimal digits in which single
    underscores may separate digits, then optional blanks.  [None] stands
    for ValueError. *)

Definition int_space (c : char) : bool :=
  if (c <? 127)%N
  then ((9 <=? c) && (c <=? 13) || (c =? 32))%N
  else isspace c.

Definition digit_value (py : Interp) (c : char) : option Z :=
  if (c <? 128)%N
  then if ((48 <=? c) && (c <=? 57))%N then Some (Z.of_N c - 48)%Z else None
  else unicode_decimal py c.

Inductive scan_prev := AtStart | AfterDigit | AfterUnderscore.

Fixpoint scan_digits (py : Interp) (prev : scan_prev) (acc : Z) (digits : nat)
  (s : str) : option (Z * nat) :=
  match s with
  | [] =>
      match prev with
      | AfterDigit => Some (acc, digits)
      | _ => None
      end
  | c :: s' =>
      if (c =? 95)%N then
        match prev with
        | AfterDigit => scan_digits py AfterUnderscore acc digits s'
        | _ => None
        end
      else
        match digit_value py c with
        | Some d => scan_digits py AfterDigit (10 * acc + d)%Z (S digits) s'
        | None =>
            match prev with
            | AfterDigit => if forallb int_space s then Some (acc, digits) else None
            | _ => None
            end
        end
  end.

Fixpoint skip_int_space (s : str) : str :=
  match s with
  | [] => []
  | c :: s' => if int_space c then skip_int_space s' else s
  end.

Definition int_sign (s : str) : bool * str :=
  match s with
  | c :: s' =>
      if (c =? 43)%N then (false, s')
      else if (c =? 45)%N then (true, s')
      else (false, s)
  | [] => (false, [])
  end.

Definition too_many_digits (py : Interp) (digits : nat) : bool :=
  (640 <? digits) && (0 <? int_max_str_digits py)
  && (int_max_str_digits py <? digits).

Definition py_int (py : Interp) (s : str) : option Z :=
  let '(negative, body) := int_sign (skip_int_space s) in
  match scan_digits py AtStart 0%Z 0 body with
  | Some (n, digits) =>
      if too_many_digits py digits then None
      else Some (if negative then (- n)%Z else n)
  | None => None
  end.

Definition int (py : Interp) (s : str) : result Z :=
  match py_int py s with
  | Some z => Ok z
  | None => Raise ValueError
  end.

(** ** Utility functions *)

(** The fenced region of the text, when the text has a fence. *)
Definition fenced (csv_content : str) : result str :=
  if contains (u "```csv") csv_content then
    part <- getitem (split csv_content (u "```csv")) 1 ;;
    getitem (split part (u "```")) 0
  else if contains (u "```") csv_content then
    part <- getitem (split csv_content (u "```")) 1 ;;
    getitem (split part (u "```")) 0
  else Ok csv_content.

(** The record one accepted line stores. *)
Definition metric_record (a b c : Z) : dict pynum :=
  [ (u "negative_accum_count", PyInt a);
    (u "match_rate_percent", PyInt b);
    (u "referral_capture_rate_percent", PyInt c) ].

(** [try: ... except (ValueError, IndexError)] around the assignment: the
    line is reported and the mapping is left as it was. *)
Definition skipping_invalid {A : Type} (unchanged : A) (body : result A) : result A :=
  match body with
  | Raise ValueError | Raise IndexError => Ok unchanged
  | r => r
  end.

(** The body of the loop over the lines. *)
Definition parse_line (py : Interp) (metrics : dict (dict pynum)) (line : str)
  : result (dict (dict pynum)) :=
  let line := strip line in
  if (match line with [] => true | _ => false end)
     || startswith line (u "customer_id")
  then Ok metrics
  else
    let values := split line (u ",") in
    if 4 <=? length values then
      skipping_invalid metrics
        (v0 <- getitem values 0 ;;
         let customer_id := strip v0 in
         v1 <- getitem values 1 ;;
         a <- int py (strip v1) ;;
         v2 <- getitem values 2 ;;
         b <- int py (strip v2) ;;
         v3 <- getitem values 3 ;;
         c <- int py (strip v3) ;;
         Ok (dict_set metrics customer_id (metric_record a b c)))
    else Ok metrics.

(** The lines the loop runs over. *)
Definition csv_lines (csv_content : str) : result (list str) :=
  content <- fenced csv_content ;;
  Ok (split (strip content) nl).

Definition parse_csv_metrics (py : Interp) (csv_content : str)
  : result (dict (dict pynum)) :=
  lines <- csv_lines csv_content ;;
  for_each (parse_line py) lines [].

Definition low_risk : str := u "Low Risk".
Definition medium_risk : str := u "Medium Risk".
Definition high_risk : str := u "High Risk".
Definition unknown : str := u "Unknown".

Definition negative_accum_count : str := u "negative_accum_count".
Definition match_rate_percent : str := u "match_rate_percent".
Definition referral_capture_rate_percent : str := u "referral_capture_rate_percent".

Definition thresholds : dict (list (pynum * str * str)) :=
  [ (negative_accum_count,
      [ (PyInt 5, low_risk, u "0–5");
        (PyInt 15, medium_risk, u "6–15");
        (inf, high_risk, u ">15") ]);
    (match_rate_percent,
      [ (PyInt 85, high_risk, u "<70");
        (PyInt 70, medium_risk, u "70–85");
        (inf, low_risk, u ">85") ]);
    (referral_capture_rate_percent,
      [ (PyInt 40, high_risk, u "<40");
        (PyInt 60, medium_risk, u "40–60");
        (inf, low_risk, u ">60") ]) ].

(** The loop over the rows of one metric: the first row whose threshold
    the value does not exceed, and the fall-through after the loop. *)
Fixpoint first_band (rows : list (pynum * str * str)) (value : pynum) : str * str :=
  match rows with
  | [] => (unknown, unknown)
  | (threshold, risk_level, range_str) :: rows' =>
      if py_le value threshold then (risk_level, range_str)
      else first_band rows' value
  end.

Definition evaluate_risk_level (metric_name : str) (value : pynum)
  : result (str * str) :=
  if PyStr.eqb metric_name match_rate_percent then
    if py_lt value (PyInt 70) then Ok (high_risk, u "<70")
    else if py_le value (PyInt 85) then Ok (medium_risk, u "70–85")
    else Ok (low_risk, u ">85")
  else
    rows <- dict_getitem thresholds metric_name ;;
    Ok (first_band rows value).

(** ** Nodes *)

Definition set_customer_metrics (state : ComplianceState) (v : dict (dict pynum)) :=
  {| customer_metrics := v;
     knowledge_base := knowledge_base state;
     risk_evaluations := risk_evaluations state;
     customer_reports := customer_reports state;
     regulatory_updates := regulatory_updates state;
     final_report := final_report state |}.

Definition set_knowledge_base (state : ComplianceState) (v : str) :=
  {| customer_metrics := customer_metrics state;
     knowledge_base := v;
     risk_evaluations := risk_evaluations state;
     customer_reports := customer_reports state;
     regulatory_updates := regulatory_updates state;
     final_report := final_report state |}.

Definition set_risk_evaluations (state : ComplianceState) (v : list RiskEvaluation) :=
  {| customer_metrics := customer_metrics state;
     knowledge_base := knowledge_base state;
     risk_evaluations := v;
     customer_reports := customer_reports state;
     regulatory_updates := regulatory_updates state;
     final_report := final_report state |}.

Definition set_customer_reports (state : ComplianceState) (v : list CustomerRiskReport) :=
  {| customer_metrics := customer_metrics state;
     knowledge_base := knowledge_base state;
     risk_evaluations := risk_evaluations state;
     customer_reports := v;
     regulatory_updates := regulatory_updates state;
     final_report := final_report state |}.

Definition set_regulatory_updates (state : ComplianceState) (v : str) :=
  {| customer_metrics := customer_metrics state;
     knowledge_base := knowledge_base state;
     risk_evaluations := risk_evaluations state;
     customer_reports := customer_reports state;
     regulatory_updates := v;
     final_report := final_report state |}.

Definition set_final_report (state : ComplianceState) (v : str) :=
  {| customer_metrics := customer_metrics state;
     knowledge_base := knowledge_base state;
     risk_evaluations := risk_evaluations state;
     customer_reports := customer_reports state;
     regulatory_updates := regulatory_updates state;
     final_report := v |}.

(** [response.get('output', {}).get('text', '')] *)
Definition output_text (response : option str) : str :=
  match response with
  | Some text => text
  | None => []
  end.

Definition metrics_request : str :=
  u "What are the customer metrics for all covered entities? Include customer_id, negative_accum_count, match_rate_percent, and referral_capture_rate_percent in CSV format.".

Definition retrieve_customer_metrics (py : Interp) (w : Collaborators)
  (state : ComplianceState) : ComplianceState :=
  match retrieve_and_generate w metrics_request with
  | Returned response =>
      match parse_csv_metrics py (output_text response) with
      | Ok metrics => set_customer_metrics state metrics
      | Raise _ => set_customer_metrics state []
      end
  | Failed _ => set_customer_metrics state []
  end.

Definition knowledge_request : str :=
  u "What are the 340B program risk indicators and their thresholds? Include negative accumulation ordering risk, match rate decline risk, and referral capture under-utilization risk.".

Definition retrieve_knowledge_base (w : Collaborators) (state : ComplianceState)
  : ComplianceState :=
  match retrieve_and_generate w knowledge_request with
  | Returned response => set_knowledge_base state (output_text response)
  | Failed _ => set_knowledge_base state []
  end.

Definition risk_descriptions : dict str :=
  [ (negative_accum_count,
      u "Ordering drugs while accumulations are negative may indicate inventory control weaknesses.");
    (match_rate_percent,
      u "Low match rates may indicate incomplete documentation or eligibility classification issues.");
    (referral_capture_rate_percent,
      u "Low referral capture may indicate operational inefficiencies or missed program opportunities.") ].

(** The [value: float] field of [RiskEvaluation]: a [float] is kept, an
    [int] is converted, and one too large for a [float] fails validation. *)
Definition validate_float (value : pynum) : result spec_float :=
  match value with
  | PyFloat f => Ok f
  | PyInt z =>
      match float_of_int z with
      | Some f => Ok f
      | None => Raise ValidationError
      end
  end.

(** The body of the inner loop: classify the value and build the
    evaluation ... *)
Definition evaluation (py : Interp) (cid name : str) (v : pynum)
  : result RiskEvaluation :=
  '(level, range) <- evaluate_risk_level name v ;;
  fv <- validate_float v ;;
  Ok {| metric_name := title py (replace1 95%N 32%N name);
        customer_id := cid;
        value := fv;
        risk_level := level;
        threshold_range := range;
        explanation := dict_get_default risk_descriptions name [] |}.

(** ... and append it. *)
Definition evaluate_metric (py : Interp) (cid : str)
  (evaluations : list RiskEvaluation) (item : str * pynum)
  : result (list RiskEvaluation) :=
  let '(name, v) := item in
  e <- evaluation py cid name v ;;
  Ok (evaluations ++ [e]).

(** The body of the outer loop. *)
Definition evaluate_customer (py : Interp) (evaluations : list RiskEvaluation)
  (item : str * dict pynum) : result (list RiskEvaluation) :=
  let '(cid, metrics_data) := item in
  for_each (evaluate_metric py cid) metrics_data evaluations.

(** [sum(1 for e in evals if e.risk_level == level)] *)
Definition count_level (level : str) (evals : list RiskEvaluation) : nat :=
  list_sum (map (fun _ => 1) (filter (fun e => PyStr.eqb (risk_level e) level) evals)).

Definition customer_report (evaluations : list RiskEvaluation) (cid : str)
  : CustomerRiskReport :=
  let customer_evals :=
    filter (fun e => PyStr.eqb (customer_id e) cid) evaluations in
  {| report_customer_id := cid;
     risks := customer_evals;
     high_risk_count := count_level high_risk customer_evals;
     medium_risk_count := count_level medium_risk customer_evals;
     low_risk_count := count_level low_risk customer_evals |}.

Definition evaluate_risks (py : Interp) (state : ComplianceState)
  : result ComplianceState :=
  let metrics := customer_metrics state in
  evaluations <- for_each (evaluate_customer py) metrics [] ;;
  let state := set_risk_evaluations state evaluations in
  let reports :=
    fold_left (fun reports cid => reports ++ [customer_report evaluations cid])
      (keys metrics) [] in
  Ok (set_customer_reports state reports).

Definition regulatory_suggestions : dict str :=
  [ (u "340B program compliance",
      u "Recent regulatory guidance emphasizes stronger controls on accumulation tracking and diversion prevention.");
    (u "negative accumulation",
      u "HRSA guidance recommends monitoring negative accumulation patterns as early indicators of inventory management issues.");
    (u "match rate",
      u "Patient eligibility documentation must be maintained with higher accuracy rates to ensure program integrity.");
    (u "referral capture",
      u "Covered entities should enhance referral capture processes to maximize program utilization and compliance.") ].

(** The loop over the canned suggestions and the text after it. *)
Fixpoint canned_guidance (py : Interp) (suggestions : dict str) (query : str) : str :=
  match suggestions with
  | [] =>
      u "Regulatory context: Continuous monitoring of compliance metrics is essential for 340B program integrity."
  | (key, guidance) :: rest =>
      if contains (lower py key) (lower py query) then guidance
      else canned_guidance py rest query
  end.

(** The fallback after the tool failed: the HTML endpoint. *)
Definition scrape (py : Interp) (w : Collaborators) (query : str) : reply str :=
  match quote py query with
  | Failed message => Failed message
  | Returned quoted =>
      match requests_get w (u "https://html.duckduckgo.com/?q=" ++ quoted) with
      | Failed message => Failed message
      | Returned (status_code, text) =>
          if (status_code =? 200)%Z then
            if contains (u "340B") text || contains (u "compliance") (lower py text)
            then
              Returned
                (u "DuckDuckGo results for '" ++ query
                 ++ u "': Found relevant 340B compliance information online." ++ nl
                 ++ u "Key topics include: program management, diversion prevention, patient eligibility, and regulatory compliance.")
            else
              Returned
                (u "DuckDuckGo search for '" ++ query
                 ++ u "' completed. Regulatory updates and guidance available online.")
          else
            Returned
              (u "Search results for '" ++ query
               ++ u "' retrieved from regulatory databases.")
      end
  end.

Definition duckduckgo_search (py : Interp) (w : Collaborators) (query : str)
  : reply str :=
  match search_run w query with
  | Returned results => Returned results
  | Failed _ =>
      match scrape py w query with
      | Returned results => Returned results
      | Failed _ => Returned (canned_guidance py regulatory_suggestions query)
      end
  end.

Definition search_queries : list str :=
  [ u "340B program compliance risks 2025 2026";
    u "healthcare diversion compliance negative accumulation";
    u "patient eligibility matching audit requirements" ].

(** The body of the loop over the queries. *)
Definition search_one (py : Interp) (w : Collaborators) (all_results : list str)
  (query : str) : list str :=
  match duckduckgo_search py w query with
  | Returned results =>
      all_results ++ [u "Query: " ++ query ++ nl ++ results ++ nl]
  | Failed message =>
      all_results ++ [u "Query: " ++ query ++ nl ++ u "Search failed: " ++ message ++ nl]
  end.

Definition search_regulatory_updates (py : Interp) (w : Collaborators)
  (state : ComplianceState) : ComplianceState :=
  let all_results := fold_left (search_one py w) search_queries [] in
  set_regulatory_updates state (join nl all_results).

(** The prompt sent to the chat model. *)
Definition summary_prompt (py : Interp) (state : ComplianceState) : str :=
  let high_risk_customers :=
    filter (fun r => 0 <? high_risk_count r) (customer_reports state) in
  u "Based on the following compliance analysis, generate a brief executive summary:"
  ++ nl ++ nl
  ++ u "Knowledge Base:" ++ nl
  ++ knowledge_base state ++ nl ++ nl
  ++ u "High-Risk Customers: " ++ of_nat (length high_risk_customers) ++ nl ++ nl
  ++ u "Details:" ++ nl
  ++ json_dumps py (customer_reports state) ++ nl ++ nl
  ++ u "Recent Regulatory Context:" ++ nl
  ++ firstn 500 (regulatory_updates state) ++ u "..." ++ nl ++ nl
  ++ u "Provide a 2-3 sentence summary highlighting the most critical risks detected.".

(** The body of the loop over the evaluations of one customer. *)
Definition risk_lines (py : Interp) (report_lines : list str) (risk : RiskEvaluation)
  : list str :=
  report_lines
  ++ [nl ++ u "  • " ++ metric_name risk]
  ++ [u "    Value: " ++ float_str py (value risk)]
  ++ [u "    Risk Level: " ++ risk_level risk]
  ++ [u "    Threshold: " ++ threshold_range risk]
  ++ [u "    Description: " ++ explanation risk].

(** The body of the loop over the customer reports. *)
Definition customer_lines (py : Interp) (report_lines : list str)
  (customer_report : CustomerRiskReport) : list str :=
  let report_lines :=
    report_lines
    ++ [nl ++ u "Customer: " ++ report_customer_id customer_report]
    ++ [u "  High Risk Issues: " ++ of_nat (high_risk_count customer_report)]
    ++ [u "  Medium Risk Issues: " ++ of_nat (medium_risk_count customer_report)]
    ++ [u "  Low Risk Issues: " ++ of_nat (low_risk_count customer_report)] in
  fold_left (risk_lines py) (risks customer_report) report_lines.

(** The [try] around the chat model call. *)
Definition executive_summary (py : Interp) (w : Collaborators)
  (state : ComplianceState) : str :=
  match model_invoke w (summary_prompt py state) with
  | Returned content => content
  | Failed message => u "Error generating summary: " ++ message
  end.

Definition generate_report (py : Interp) (w : Collaborators) (state : ComplianceState)
  : ComplianceState :=
  let summary := executive_summary py w state in
  let report_lines :=
    [ times 61%N 80;
      u "340B PROGRAM COMPLIANCE RISK DETECTION REPORT";
      times 61%N 80;
      [];
      u "EXECUTIVE SUMMARY";
      times 45%N 80;
      summary;
      [];
      u "CUSTOMER RISK ANALYSIS";
      times 45%N 80 ] in
  let report_lines :=
    fold_left (customer_lines py) (customer_reports state) report_lines in
  let report_lines :=
    report_lines
    ++ [[]]
    ++ [times 61%N 80]
    ++ [u "REGULATORY CONTEXT"]
    ++ [times 61%N 80]
    ++ [firstn 1000 (regulatory_updates state)]
    ++ [[]]
    ++ [u "Report Generated: " ++ strip (date_u w)]
    ++ [times 61%N 80] in
  set_final_report state (join nl report_lines).

(** ** Graph construction

    Five nodes on a line; a node that raises ends the run. *)

Definition workflow (py : Interp) (w : Collaborators) (state : ComplianceState)
  : result ComplianceState :=
  let state := retrieve_customer_metrics py w state in
  let state := retrieve_knowledge_base w state in
  state <- evaluate_risks py state ;;
  let state := search_regulatory_updates py w state in
  Ok (generate_report py w state).

Definition initial_state : ComplianceState :=
  {| customer_metrics := [];
     knowledge_base := [];
     risk_evaluations := [];
     customer_reports := [];
     regulatory_updates := [];
     final_report := [] |}.

(** ** Stand-ins

    An interpreter with no decimal digits above ASCII and the usual limit
    of 4300 digits, and services whose every call fails: enough to run
    the program on ASCII text. *)

Definition ascii_interp : Interp :=
  {| unicode_decimal := fun _ => None;
     int_max_str_digits := 4300;
     unicode_lower := fun s => s;
     unicode_title := fun s => s;
     float_str := fun _ => u "0.0";
     json_dumps := fun _ => u "[]";
     quote := fun s => Returned s |}.

Definition unreachable : str := u "service unreachable".

Definition failing_services : Collaborators :=
  {| search_run := fun _ => Failed unreachable;
     requests_get := fun _ => Failed unreachable;
     retrieve_and_generate := fun _ => Failed unreachable;
     model_invoke := fun _ => Failed unreachable;
     date_u := u "Fri Nov  6 00:00:00 UTC 2026" ++ nl |}.

(** Services of which only the chat model answers. *)
Definition narrative : str := u "All customers are within their thresholds.".

Definition summarizing_services : Collaborators :=
  {| search_run := fun _ => Failed unreachable;
     requests_get := fun _ => Failed unreachable;
     retrieve_and_generate := fun _ => Failed unreachable;
     model_invoke := fun _ => Returned narrative;
     date_u := u "Fri Nov  6 00:00:00 UTC 2026" ++ nl |}.

(** * Properties *)

(** ** Text *)

Lemma eqb_eq (s t : str) : PyStr.eqb s t = true <-> s = t.
Proof.
  revert t; induction s as [|a s IH]; intros [|b t]; simpl; split;
    try congruence; try reflexivity.
  - intros H. apply andb_true_iff in H as [Hab Hst].
    apply N.eqb_eq in Hab. apply IH in Hst. congruence.
  - intros H. injection H as -> ->.
    rewrite N.eqb_refl. simpl. now apply IH.
Qed.

Lemma eqb_refl (s : str) : PyStr.eqb s s = true.
Proof. now apply eqb_eq. Qed.

Lemma eqb_neq (s t : str) : PyStr.eqb s t = false <-> s <> t.
Proof.
  split.
  - intros H E. apply eqb_eq in E. congruence.
  - intros H. destruct (PyStr.eqb s t) eqn:E; [|reflexivity].
    apply eqb_eq in E. contradiction.
Qed.

Lemma eqb_sym (s t : str) : PyStr.eqb s t = PyStr.eqb t s.
Proof.
  destruct (PyStr.eqb s t) eqn:E.
  - apply eqb_eq in E. subst. symmetry. apply eqb_refl.
  - symmetry. apply eqb_neq. apply eqb_neq in E. congruence.
Qed.

Lemma split_go_not_nil sep skip cur s : split_go sep skip cur s <> [].
Proof.
  revert skip cur; induction s as [|c s IH]; intros skip cur; cbn [split_go].
  - discriminate.
  - destruct skip as [|k]; [|apply IH].
    destruct (startswith (c :: s) sep); [discriminate | apply IH].
Qed.

Lemma split_not_nil s sep : split s sep <> [].
Proof. apply split_go_not_nil. Qed.

(** A separator that occurs in the text gives at least two pieces. *)
Lemma split_go_contains sep cur s :
  sep <> [] -> contains sep s = true -> 2 <= length (split_go sep 0 cur s).
Proof.
  intros Hsep. revert cur; induction s as [|c s IH]; intros cur H.
  - simpl in H. destruct sep; [contradiction | discriminate].
  - cbn [split_go]. cbn [contains] in H.
    destruct (startswith (c :: s) sep) eqn:E.
    + cbn [length].
      pose proof (split_go_not_nil sep (length sep - 1) [] s) as Hn.
      destruct (split_go sep (length sep - 1) [] s); [contradiction | simpl; lia].
    + simpl in H. now apply IH.
Qed.

Lemma getitem_ok {A : Type} (l : list A) (i : nat) :
  i < length l -> exists a, getitem l i = Ok a.
Proof.
  intros H. unfold getitem.
  destruct (nth_error l i) eqn:E; [eauto|].
  apply nth_error_None in E. lia.
Qed.

(** ** Numbers *)

Lemma py_le_int (a b : Z) : py_le (PyInt a) (PyInt b) = (a <=? b)%Z.
Proof.
  unfold py_le, py_compare; simpl.
  rewrite !Z.mul_1_r. unfold Z.leb. now destruct (a ?= b)%Z.
Qed.

Lemma py_lt_int (a b : Z) : py_lt (PyInt a) (PyInt b) = (a <? b)%Z.
Proof.
  unfold py_lt, py_compare; simpl.
  rewrite !Z.mul_1_r. unfold Z.ltb. now destruct (a ?= b)%Z.
Qed.

(** Every number is at most [float('inf')]; NaN is not. *)
Lemma py_le_inf (v : pynum) : py_le v inf = negb (is_nan v).
Proof.
  unfold py_le, py_compare, is_nan.
  destruct (exact_of v) as [[| |]|]; reflexivity.
Qed.

Lemma py_le_nan (v : pynum) (t : pynum) : is_nan v = true -> py_le v t = false.
Proof.
  unfold py_le, py_compare, is_nan. now destruct (exact_of v).
Qed.

Lemma py_lt_nan (v : pynum) (t : pynum) : is_nan v = true -> py_lt v t = false.
Proof.
  unfold py_lt, py_compare, is_nan. now destruct (exact_of v).
Qed.

(** ** [evaluate_risk_level] *)

Definition known_metric (name : str) : Prop :=
  name = negative_accum_count \/ name = match_rate_percent
  \/ name = referral_capture_rate_percent.

(** The bands of the three metrics on integer values, as the code
    computes them. *)
Lemma negative_accum_bands (z : Z) :
  evaluate_risk_level negative_accum_count (PyInt z) =
  Ok (if (z <=? 5)%Z then (low_risk, u "0–5")
      else if (z <=? 15)%Z then (medium_risk, u "6–15")
      else (high_risk, u ">15")).
Proof.
  unfold evaluate_risk_level.
  change (PyStr.eqb negative_accum_count match_rate_percent) with false.
  unfold dict_getitem.
  change (dict_get thresholds negative_accum_count)
    with (Some [ (PyInt 5, low_risk, u "0–5");
                 (PyInt 15, medium_risk, u "6–15");
                 (inf, high_risk, u ">15") ]).
  unfold bind. cbn [first_band]. rewrite !py_le_int, py_le_inf.
  now destruct (z <=? 5)%Z, (z <=? 15)%Z.
Qed.

Lemma match_rate_bands (z : Z) :
  evaluate_risk_level match_rate_percent (PyInt z) =
  Ok (if (z <? 70)%Z then (high_risk, u "<70")
      else if (z <=? 85)%Z then (medium_risk, u "70–85")
      else (low_risk, u ">85")).
Proof.
  unfold evaluate_risk_level.
  change (PyStr.eqb match_rate_percent match_rate_percent) with true.
  rewrite py_lt_int, py_le_int.
  now destruct (z <? 70)%Z, (z <=? 85)%Z.
Qed.

Lemma referral_capture_bands (z : Z) :
  evaluate_risk_level referral_capture_rate_percent (PyInt z) =
  Ok (if (z <=? 40)%Z then (high_risk, u "<40")
      else if (z <=? 60)%Z then (medium_risk, u "40–60")
      else (low_risk, u ">60")).
Proof.
  unfold evaluate_risk_level.
  change (PyStr.eqb referral_capture_rate_percent match_rate_percent) with false.
  unfold dict_getitem.
  change (dict_get thresholds referral_capture_rate_percent)
    with (Some [ (PyInt 40, high_risk, u "<40");
                 (PyInt 60, medium_risk, u "40–60");
                 (inf, low_risk, u ">60") ]).
  unfold bind. cbn [first_band]. rewrite !py_le_int, py_le_inf.
  now destruct (z <=? 40)%Z, (z <=? 60)%Z.
Qed.

(** C1 (the code differs at the boundary).  For
    ['referral_capture_rate_percent'] the loop tests [value <= 40] first,
    so the boundary value 40 is classified High Risk with range "<40",
    not Medium with "40–60"; 39 is High and 61 is Low as claimed. *)
Theorem referral_capture_boundary :
  evaluate_risk_level referral_capture_rate_percent (PyInt 40)
    = Ok (high_risk, u "<40")
  /\ evaluate_risk_level referral_capture_rate_percent (PyInt 39)
    = Ok (high_risk, u "<40")
  /\ evaluate_risk_level referral_capture_rate_percent (PyInt 61)
    = Ok (low_risk, u ">60").
Proof.
  repeat split; rewrite referral_capture_bands; reflexivity.
Qed.

(** C2 (the code differs).  For a metric name outside the three known
    names, whatever the value, the lookup [thresholds[metric_name]] raises
    KeyError: the classifier does not return the ("Unknown", "Unknown")
    pair. *)
Theorem unknown_metric_raises (name : str) (v : pynum) :
  ~ known_metric name ->
  evaluate_risk_level name v = Raise (KeyError name).
Proof.
  intros H. unfold known_metric in H.
  unfold evaluate_risk_level, dict_getitem, thresholds, dict_get.
  destruct (PyStr.eqb name match_rate_percent) eqn:E1.
  { apply eqb_eq in E1. exfalso. apply H. right. left. exact E1. }
  rewrite (eqb_sym match_rate_percent name), E1.
  destruct (PyStr.eqb negative_accum_count name) eqn:E2.
  { apply eqb_eq in E2. exfalso. apply H. left. symmetry. exact E2. }
  destruct (PyStr.eqb referral_capture_rate_percent name) eqn:E3.
  { apply eqb_eq in E3. exfalso. apply H. right. right. symmetry. exact E3. }
  reflexivity.
Qed.

Lemma unknown_metric_raises_witness :
  ~ known_metric (u "foo")
  /\ evaluate_risk_level (u "foo") (PyInt 1) = Raise (KeyError (u "foo")).
Proof.
  assert (H : ~ known_metric (u "foo")).
  { unfold known_metric. intros [H | [H | H]]; discriminate H. }
  split; [exact H | exact (unknown_metric_raises (u "foo") (PyInt 1) H)].
Defined.

(** C3.  The bands of ['negative_accum_count'] and ['match_rate_percent']
    at the values next to their boundaries. *)
Theorem negative_accum_and_match_rate_boundaries :
  evaluate_risk_level negative_accum_count (PyInt 5) = Ok (low_risk, u "0–5")
  /\ evaluate_risk_level negative_accum_count (PyInt 6) = Ok (medium_risk, u "6–15")
  /\ evaluate_risk_level negative_accum_count (PyInt 16) = Ok (high_risk, u ">15")
  /\ evaluate_risk_level match_rate_percent (PyInt 70) = Ok (medium_risk, u "70–85")
  /\ evaluate_risk_level match_rate_percent (PyInt 69) = Ok (high_risk, u "<70")
  /\ evaluate_risk_level match_rate_percent (PyInt 86) = Ok (low_risk, u ">85").
Proof.
  repeat split;
    rewrite ?negative_accum_bands, ?match_rate_bands; reflexivity.
Qed.

(** ** Loops and dictionaries *)

Lemma for_each_app {A S : Type} (body : S -> A -> result S) (l1 l2 : list A) (s : S) :
  for_each body (l1 ++ l2) s = (s' <- for_each body l1 s ;; for_each body l2 s').
Proof.
  revert s; induction l1 as [|a l1 IH]; intros s; simpl; [reflexivity|].
  destruct (body s a); simpl; [apply IH | reflexivity].
Qed.

Lemma dict_get_set_same {V : Type} (d : dict V) (k : str) (v : V) :
  dict_get (dict_set d k v) k = Some v.
Proof.
  induction d as [|[k' v'] d IH]; simpl.
  - now rewrite eqb_refl.
  - destruct (PyStr.eqb k' k) eqn:E; simpl; rewrite E; [reflexivity | exact IH].
Qed.

Lemma dict_get_set_other {V : Type} (d : dict V) (k k0 : str) (v : V) :
  k <> k0 -> dict_get (dict_set d k v) k0 = dict_get d k0.
Proof.
  intros Hk. induction d as [|[k' v'] d IH]; simpl.
  - apply eqb_neq in Hk. now rewrite Hk.
  - destruct (PyStr.eqb k' k) eqn:E; simpl.
    + apply eqb_eq in E. subst k'. apply eqb_neq in Hk. now rewrite Hk.
    + destruct (PyStr.eqb k' k0); [reflexivity | exact IH].
Qed.

Lemma keys_dict_set_in {V : Type} (d : dict V) (k : str) (v : V) (x : str) :
  In x (keys (dict_set d k v)) -> x = k \/ In x (keys d).
Proof.
  unfold keys. induction d as [|[k' v'] d IH]; simpl.
  - intros [H | []]. now left.
  - destruct (PyStr.eqb k' k) eqn:E; simpl; intros [H | H]; auto.
    destruct (IH H); auto.
Qed.

(** Assignment keeps one entry per key. *)
Lemma dict_set_NoDup {V : Type} (d : dict V) (k : str) (v : V) :
  NoDup (keys d) -> NoDup (keys (dict_set d k v)).
Proof.
  unfold keys. induction d as [|[k' v'] d IH]; simpl; intros H.
  - constructor; [intros [] | constructor].
  - inversion H as [|? ? Hnot Hd]; subst.
    destruct (PyStr.eqb k' k) eqn:E; simpl.
    + now constructor.
    + constructor; [|now apply IH].
      intros Hin. apply (keys_dict_set_in d k v) in Hin as [-> | Hin].
      * now rewrite eqb_refl in E.
      * contradiction.
Qed.

Lemma dict_get_in_keys {V : Type} (d : dict V) (k : str) (v : V) :
  dict_get d k = Some v -> In k (keys d).
Proof.
  unfold keys. induction d as [|[k' v'] d IH]; simpl; [discriminate|].
  destruct (PyStr.eqb k' k) eqn:E; intros H.
  - apply eqb_eq in E. now left.
  - right. now apply IH.
Qed.

(** How often a key stands in a list of keys. *)
Definition occurrences (k : str) (l : list str) : nat :=
  length (filter (PyStr.eqb k) l).

Lemma occurrences_not_in (k : str) (l : list str) :
  ~ In k l -> occurrences k l = 0.
Proof.
  unfold occurrences. induction l as [|x l IH]; simpl; intros H; [reflexivity|].
  destruct (PyStr.eqb k x) eqn:E.
  - apply eqb_eq in E. subst. exfalso. apply H. now left.
  - apply IH. intros Hin. apply H. now right.
Qed.

Lemma occurrences_NoDup (k : str) (l : list str) :
  NoDup l -> In k l -> occurrences k l = 1.
Proof.
  induction 1 as [|x l Hx Hl IH]; simpl; intros Hin; [contradiction|].
  unfold occurrences. simpl.
  destruct (PyStr.eqb k x) eqn:E.
  - apply eqb_eq in E. subst x. simpl.
    pose proof (occurrences_not_in k l Hx) as H0.
    unfold occurrences in H0. now rewrite H0.
  - destruct Hin as [-> | Hin]; [now rewrite eqb_refl in E | now apply IH].
Qed.

(** ** [parse_csv_metrics] *)

(** The fence is cut without an index out of range. *)
Lemma fenced_returns (csv_content : str) : exists content, fenced csv_content = Ok content.
Proof.
  assert (Hcut : forall sep, sep <> [] -> contains sep csv_content = true ->
            exists content,
              (part <- getitem (split csv_content sep) 1 ;;
               getitem (split part (u "```")) 0) = Ok content).
  { intros sep Hsep Hin.
    destruct (getitem_ok (split csv_content sep) 1) as [part Hpart].
    { apply (split_go_contains sep [] csv_content Hsep) in Hin. unfold split. lia. }
    rewrite Hpart. simpl.
    apply getitem_ok.
    pose proof (split_not_nil part (u "```")) as Hn.
    destruct (split part (u "```")); [contradiction | simpl; lia]. }
  unfold fenced.
  destruct (contains (u "```csv") csv_content) eqn:E1.
  - apply Hcut; [discriminate | exact E1].
  - destruct (contains (u "```") csv_content) eqn:E2.
    + apply Hcut; [discriminate | exact E2].
    + eauto.
Qed.

Lemma csv_lines_returns (csv_content : str) : exists lines, csv_lines csv_content = Ok lines.
Proof.
  unfold csv_lines. destruct (fenced_returns csv_content) as [c ->]. simpl. eauto.
Qed.

Lemma startswith_app (s p q : str) :
  startswith s (p ++ q) = true -> startswith s p = true.
Proof.
  revert s; induction p as [|a p IH]; intros s; simpl; [reflexivity|].
  destruct s as [|b s]; [discriminate|].
  intros H. apply andb_true_iff in H as [H1 H2].
  rewrite H1. simpl. now apply IH.
Qed.

Lemma contains_app (p q s : str) :
  contains (p ++ q) s = true -> contains p s = true.
Proof.
  induction s as [|c s IH]; cbn [contains]; intros H.
  - apply orb_true_iff in H as [H | H]; [|discriminate].
    apply startswith_app in H. now rewrite H.
  - apply orb_true_iff in H as [H | H].
    + apply startswith_app in H. now rewrite H.
    + rewrite (IH H). apply orb_true_r.
Qed.

(** Without a fence marker the lines are those of the whole text. *)
Lemma csv_lines_plain (csv_content : str) :
  contains (u "```") csv_content = false ->
  csv_lines csv_content = Ok (split (strip csv_content) nl).
Proof.
  intros H. unfold csv_lines, fenced. rewrite H.
  destruct (contains (u "```csv") csv_content) eqn:E; [|reflexivity].
  change (u "```csv") with (u "```" ++ u "csv") in E.
  apply contains_app in E. congruence.
Qed.

(** A data line as the loop accepts it: not blank once stripped, not
    starting with the header token, at least four comma-separated fields,
    and [int] accepts the second, third and fourth. *)
Definition data_line (py : Interp) (line cid : str) (a b c : Z) : Prop :=
  strip line <> []
  /\ startswith (strip line) (u "customer_id") = false
  /\ exists f0 f1 f2 f3 rest,
       split (strip line) (u ",") = f0 :: f1 :: f2 :: f3 :: rest
       /\ cid = strip f0
       /\ py_int py (strip f1) = Some a
       /\ py_int py (strip f2) = Some b
       /\ py_int py (strip f3) = Some c.

(** A malformed line: fewer than four fields, or a numeric field that
    [int] rejects. *)
Definition malformed_line (py : Interp) (line : str) : Prop :=
  length (split (strip line) (u ",")) < 4
  \/ exists f0 f1 f2 f3 rest,
       split (strip line) (u ",") = f0 :: f1 :: f2 :: f3 :: rest
       /\ (py_int py (strip f1) = None
           \/ py_int py (strip f2) = None
           \/ py_int py (strip f3) = None).

(** The data line of the claim: [data_line] with the header test of the
    specification (the first field is not the header token). *)
Definition claimed_data_line (py : Interp) (line cid : str) (a b c : Z) : Prop :=
  strip line <> []
  /\ exists f0 f1 f2 f3 rest,
       split (strip line) (u ",") = f0 :: f1 :: f2 :: f3 :: rest
       /\ strip f0 <> u "customer_id"
       /\ cid = strip f0
       /\ py_int py (strip f1) = Some a
       /\ py_int py (strip f2) = Some b
       /\ py_int py (strip f3) = Some c.

Lemma parse_line_data py metrics line cid a b c :
  data_line py line cid a b c ->
  parse_line py metrics line = Ok (dict_set metrics cid (metric_record a b c)).
Proof.
  intros (Hne & Hhead & f0 & f1 & f2 & f3 & rest & Hsplit & -> & Ha & Hb & Hc).
  unfold parse_line. rewrite Hhead, Hsplit.
  destruct (strip line); [contradiction|].
  cbn [orb length Nat.leb getitem nth_error bind].
  unfold int. rewrite Ha, Hb, Hc. reflexivity.
Qed.

Lemma parse_line_malformed py metrics line :
  malformed_line py line -> parse_line py metrics line = Ok metrics.
Proof.
  intros H. unfold parse_line.
  destruct ((match strip line with [] => true | _ => false end)
            || startswith (strip line) (u "customer_id")); [reflexivity|].
  destruct H as [H | (f0 & f1 & f2 & f3 & rest & Hsplit & H)].
  - destruct (Nat.leb_spec 4 (length (split (strip line) (u ",")))); [lia | reflexivity].
  - rewrite Hsplit.
    cbn [length Nat.leb getitem nth_error bind]. unfold int.
    destruct (py_int py (strip f1)) as [a|]; [|reflexivity].
    destruct (py_int py (strip f2)) as [b|]; [|reflexivity].
    destruct (py_int py (strip f3)) as [c|]; [|reflexivity].
    destruct H as [H | [H | H]]; discriminate H.
Qed.

(** One pass of the loop never raises: it stores the record of a data
    line and leaves the mapping alone otherwise. *)
Lemma parse_line_cases py metrics line :
  (parse_line py metrics line = Ok metrics
   /\ forall cid a b c, ~ data_line py line cid a b c)
  \/ exists cid a b c,
       data_line py line cid a b c
       /\ parse_line py metrics line = Ok (dict_set metrics cid (metric_record a b c)).
Proof.
  destruct (strip line) as [|ch l] eqn:Hl.
  { left. split.
    - unfold parse_line. now rewrite Hl.
    - intros cid a b c (Hne & _). congruence. }
  assert (Hne : strip line <> []) by (rewrite Hl; discriminate).
  clear Hl.
  destruct (startswith (strip line) (u "customer_id")) eqn:Hh.
  { left. split.
    - unfold parse_line. rewrite Hh. now rewrite orb_true_r.
    - intros cid a b c (_ & Hh' & _). congruence. }
  destruct (split (strip line) (u ",")) as [|f0 [|f1 [|f2 [|f3 rest]]]] eqn:Hs;
    try (left; split;
         [ apply parse_line_malformed; left; rewrite Hs; simpl; lia
         | intros cid a b c (_ & _ & g0 & g1 & g2 & g3 & r & Hg & _);
           rewrite Hs in Hg; discriminate Hg ]).
  destruct (py_int py (strip f1)) as [a|] eqn:Ha;
    [destruct (py_int py (strip f2)) as [b|] eqn:Hb;
      [destruct (py_int py (strip f3)) as [c|] eqn:Hc|]|].
  - right. exists (strip f0), a, b, c.
    assert (Hd : data_line py line (strip f0) a b c).
    { split; [exact Hne|]. split; [exact Hh|].
      exists f0, f1, f2, f3, rest. auto. }
    split; [exact Hd | now apply parse_line_data].
  - left. split.
    + apply parse_line_malformed. right. exists f0, f1, f2, f3, rest. auto.
    + intros cid a' b' c' (_ & _ & g0 & g1 & g2 & g3 & r & Hg & _ & _ & _ & Hc').
      rewrite Hs in Hg. injection Hg as <- <- <- <- <-. congruence.
  - left. split.
    + apply parse_line_malformed. right. exists f0, f1, f2, f3, rest. auto.
    + intros cid a' b' c' (_ & _ & g0 & g1 & g2 & g3 & r & Hg & _ & _ & Hb' & _).
      rewrite Hs in Hg. injection Hg as <- <- <- <- <-. congruence.
  - left. split.
    + apply parse_line_malformed. right. exists f0, f1, f2, f3, rest. auto.
    + intros cid a' b' c' (_ & _ & g0 & g1 & g2 & g3 & r & Hg & _ & Ha' & _).
      rewrite Hs in Hg. injection Hg as <- <- <- <- <-. congruence.
Qed.

Lemma for_each_parse_returns py lines metrics :
  exists metrics', for_each (parse_line py) lines metrics = Ok metrics'.
Proof.
  revert metrics; induction lines as [|line lines IH]; intros metrics; simpl.
  - eauto.
  - destruct (parse_line_cases py metrics line) as [[-> _] | (cid & a & b & c & _ & ->)];
      simpl; apply IH.
Qed.

Lemma for_each_parse_NoDup py lines metrics metrics' :
  NoDup (keys metrics) ->
  for_each (parse_line py) lines metrics = Ok metrics' ->
  NoDup (keys metrics').
Proof.
  revert metrics; induction lines as [|line lines IH]; intros metrics Hnd; simpl.
  - intros H. injection H as <-. exact Hnd.
  - destruct (parse_line_cases py metrics line) as [[-> _] | (cid & a & b & c & _ & ->)];
      simpl; apply IH; [exact Hnd | now apply dict_set_NoDup].
Qed.

(** Lines that are not data lines of [cid] leave the entry of [cid] alone. *)
Lemma for_each_parse_keeps py cid lines metrics metrics' :
  (forall line a b c, In line lines -> ~ data_line py line cid a b c) ->
  for_each (parse_line py) lines metrics = Ok metrics' ->
  dict_get metrics' cid = dict_get metrics cid.
Proof.
  revert metrics; induction lines as [|line lines IH]; intros metrics Hnone; simpl.
  - intros H. now injection H as <-.
  - assert (Hrest : forall l a b c, In l lines -> ~ data_line py l cid a b c).
    { intros l a b c Hin. apply Hnone. now right. }
    destruct (parse_line_cases py metrics line)
      as [[-> _] | (cid' & a & b & c & Hd & ->)]; simpl; intros H.
    + now apply IH.
    + rewrite (IH _ Hrest H). apply dict_get_set_other.
      intros ->. apply (Hnone line a b c); [now left | exact Hd].
Qed.

(** The record of a data line stands in the result unless a later data
    line carries the same customer identifier. *)
Lemma for_each_parse_last py before line after cid a b c metrics0 metrics :
  for_each (parse_line py) (before ++ line :: after) metrics0 = Ok metrics ->
  data_line py line cid a b c ->
  (forall later a' b' c', In later after -> ~ data_line py later cid a' b' c') ->
  dict_get metrics cid = Some (metric_record a b c).
Proof.
  intros H Hd Hnone. rewrite for_each_app in H.
  destruct (for_each_parse_returns py before metrics0) as [m1 Hm1].
  rewrite Hm1 in H. cbn [bind for_each] in H.
  rewrite (parse_line_data py m1 line cid a b c Hd) in H. cbn [bind] in H.
  rewrite (for_each_parse_keeps py cid after _ metrics Hnone H).
  apply dict_get_set_same.
Qed.

(** A malformed line can be taken out of the input without changing the
    result. *)
Lemma for_each_parse_skip py before line after metrics0 :
  malformed_line py line ->
  for_each (parse_line py) (before ++ line :: after) metrics0
  = for_each (parse_line py) (before ++ after) metrics0.
Proof.
  intros Hm. rewrite !for_each_app.
  destruct (for_each (parse_line py) before metrics0) as [m1|e]; [|reflexivity].
  cbn [bind for_each]. now rewrite (parse_line_malformed py m1 line Hm).
Qed.

Lemma parse_csv_metrics_unfold py text lines :
  csv_lines text = Ok lines ->
  parse_csv_metrics py text = for_each (parse_line py) lines [].
Proof. intros H. unfold parse_csv_metrics. now rewrite H. Qed.

(** C4 (amended).  Parsing never raises.  A line of the parsed content
    that, once stripped, is not empty, does not start with the header
    token, has at least four comma-separated fields and whose second to
    fourth fields are integers is mapped to its exact record (stripped
    customer identifier, three integers), unless a later such line carries
    the same identifier.  A line with fewer than four fields or with a
    field that is not an integer contributes nothing: the result is the
    one the other lines alone give. *)
Theorem parse_csv_metrics_lines (py : Interp) (text : str) :
  exists lines metrics,
    csv_lines text = Ok lines
    /\ parse_csv_metrics py text = Ok metrics
    /\ (forall before line after cid a b c,
          lines = before ++ line :: after ->
          data_line py line cid a b c ->
          (forall later a' b' c', In later after -> ~ data_line py later cid a' b' c') ->
          dict_get metrics cid = Some (metric_record a b c))
    /\ (forall before line after,
          lines = before ++ line :: after ->
          malformed_line py line ->
          for_each (parse_line py) (before ++ after) [] = Ok metrics).
Proof.
  destruct (csv_lines_returns text) as [lines Hlines].
  destruct (for_each_parse_returns py lines []) as [metrics Hm].
  exists lines, metrics.
  rewrite (parse_csv_metrics_unfold py text lines Hlines).
  repeat split; auto.
  - intros before line after cid a b c -> Hd Hnone.
    exact (for_each_parse_last py before line after cid a b c [] metrics Hm Hd Hnone).
  - intros before line after -> Hmal.
    now rewrite <- (for_each_parse_skip py before line after [] Hmal).
Qed.

(** C4 as stated fails: a line whose first field is not the header token
    but starts with it is skipped as a header.  The one-line input
    [customer_id_9,1,2,3] has four fields, a first field other than
    [customer_id] and three integers, and the result is empty. *)
Lemma header_prefixed_line_is_dropped :
  csv_lines (u "customer_id_9,1,2,3") = Ok [u "customer_id_9,1,2,3"]
  /\ (forall py,
        claimed_data_line py (u "customer_id_9,1,2,3") (u "customer_id_9") 1 2 3)
  /\ (forall py, parse_csv_metrics py (u "customer_id_9,1,2,3") = Ok []).
Proof.
  split; [reflexivity|]. split.
  - intros py. split; [vm_compute; discriminate|].
    exists (u "customer_id_9"), (u "1"), (u "2"), (u "3"), [].
    repeat split; try (vm_compute; reflexivity).
    vm_compute; discriminate.
  - intros py. reflexivity.
Qed.

(** C10.  When two or more data lines carry the same customer identifier,
    the result has that customer exactly once, with the record of the last
    of these lines; and a line with more than four fields is accepted on
    its first four. *)
Theorem last_line_wins (py : Interp) (text : str) (lines before : list str)
  (first : str) (between : list str) (last : str) (after : list str)
  (cid : str) (a1 b1 c1 a b c : Z) :
  csv_lines text = Ok lines ->
  lines = before ++ first :: between ++ last :: after ->
  data_line py first cid a1 b1 c1 ->
  data_line py last cid a b c ->
  (forall later a' b' c', In later after -> ~ data_line py later cid a' b' c') ->
  (exists metrics,
     parse_csv_metrics py text = Ok metrics
     /\ occurrences cid (keys metrics) = 1
     /\ dict_get metrics cid = Some (metric_record a b c))
  /\ (forall metrics line f0 f1 f2 f3 rest x y z,
        strip line <> [] ->
        startswith (strip line) (u "customer_id") = false ->
        split (strip line) (u ",") = f0 :: f1 :: f2 :: f3 :: rest ->
        py_int py (strip f1) = Some x ->
        py_int py (strip f2) = Some y ->
        py_int py (strip f3) = Some z ->
        parse_line py metrics line
        = Ok (dict_set metrics (strip f0) (metric_record x y z))).
Proof.
  intros Hlines -> _ Hlast Hnone. split.
  - rewrite (parse_csv_metrics_unfold py text _ Hlines).
    destruct (for_each_parse_returns py
                (before ++ first :: between ++ last :: after) []) as [metrics Hm].
    exists metrics. split; [exact Hm|].
    assert (Hget : dict_get metrics cid = Some (metric_record a b c)).
    { change (before ++ first :: between ++ last :: after)
        with (before ++ (first :: between) ++ last :: after) in Hm.
      rewrite app_assoc in Hm.
      exact (for_each_parse_last py _ last after cid a b c [] metrics Hm Hlast Hnone). }
    split; [|exact Hget].
    apply occurrences_NoDup.
    + apply (for_each_parse_NoDup py (before ++ first :: between ++ last :: after)
               [] metrics); [constructor | exact Hm].
    + exact (dict_get_in_keys metrics cid _ Hget).
  - intros metrics line f0 f1 f2 f3 rest x y z Hne Hh Hs Hx Hy Hz.
    apply parse_line_data. split; [exact Hne|]. split; [exact Hh|].
    exists f0, f1, f2, f3, rest. auto.
Qed.

Ltac solve_data_line f0 f1 f2 f3 rest :=
  split; [vm_compute; discriminate|];
  split; [vm_compute; reflexivity|];
  exists f0, f1, f2, f3, rest; repeat split; vm_compute; reflexivity.

Lemma last_line_wins_witness :
  exists metrics,
    parse_csv_metrics ascii_interp (u "C1,1,2,3" ++ nl ++ u "C1, 4,5 ,6,extra")
      = Ok metrics
    /\ occurrences (u "C1") (keys metrics) = 1
    /\ dict_get metrics (u "C1") = Some (metric_record 4 5 6).
Proof.
  refine (proj1 (last_line_wins ascii_interp
            (u "C1,1,2,3" ++ nl ++ u "C1, 4,5 ,6,extra")
            [u "C1,1,2,3"; u "C1, 4,5 ,6,extra"]
            [] (u "C1,1,2,3") [] (u "C1, 4,5 ,6,extra") []
            (u "C1") 1 2 3 4 5 6 _ _ _ _ _)).
  - vm_compute. reflexivity.
  - reflexivity.
  - solve_data_line (u "C1") (u "1") (u "2") (u "3") (@nil str).
  - solve_data_line (u "C1") (u " 4") (u "5 ") (u "6") [u "extra"].
  - intros later a' b' c' [].
Defined.

(** ** [evaluate_risks] *)

(** The three tiers the rollup counts tally. *)
Definition is_tier (level : str) : Prop :=
  level = high_risk \/ level = medium_risk \/ level = low_risk.

(** The number of evaluations at one level. *)
Definition tally (level : str) (evals : list RiskEvaluation) : nat :=
  length (filter (fun e => PyStr.eqb (risk_level e) level) evals).

(** The (customer, metric, value) triples of a mapping, customers in the
    order of the mapping and metrics in the order of each record. *)
Definition entries (metrics : dict (dict pynum)) : list (str * str * pynum) :=
  flat_map (fun item => map (fun kv => (fst item, fst kv, snd kv)) (snd item)) metrics.

(** [es] are the evaluations of the metrics [md] of customer [cid], in
    order. *)
Definition evaluated (py : Interp) (cid : str) (md : dict pynum)
  (es : list RiskEvaluation) : Prop :=
  Forall2 (fun kv e => evaluation py cid (fst kv) (snd kv) = Ok e) md es.

(** A classified value is in one of the three tiers, or it is NaN and the
    loop over the rows falls through to "Unknown". *)
Lemma evaluate_risk_level_levels name v level range :
  evaluate_risk_level name v = Ok (level, range) ->
  is_tier level \/ (level = unknown /\ is_nan v = true).
Proof.
  unfold evaluate_risk_level, is_tier.
  destruct (PyStr.eqb name match_rate_percent).
  - destruct (py_lt v (PyInt 70)); [|destruct (py_le v (PyInt 85))];
      intros H; injection H as <- <-; auto.
  - unfold dict_getitem, thresholds, dict_get.
    destruct (PyStr.eqb negative_accum_count name);
      [|destruct (PyStr.eqb match_rate_percent name);
        [|destruct (PyStr.eqb referral_capture_rate_percent name)]];
      cbn [bind first_band]; rewrite ?py_le_inf;
      try discriminate;
      repeat match goal with
             | |- context [py_le v ?t] => destruct (py_le v t)
             end;
      destruct (is_nan v); cbn [negb];
      intros H; injection H as <- <-; auto.
Qed.

Lemma evaluation_fields py cid name v e :
  evaluation py cid name v = Ok e ->
  customer_id e = cid
  /\ evaluate_risk_level name v = Ok (risk_level e, threshold_range e).
Proof.
  unfold evaluation.
  destruct (evaluate_risk_level name v) as [[level range]|]; [|discriminate].
  cbn [bind]. destruct (validate_float v); [|discriminate].
  cbn [bind]. intros H. injection H as <-. auto.
Qed.

Lemma evaluation_levels py cid name v e :
  evaluation py cid name v = Ok e ->
  is_tier (risk_level e) \/ (risk_level e = unknown /\ is_nan v = true).
Proof.
  intros H. apply evaluation_fields in H as [_ H].
  exact (evaluate_risk_level_levels name v _ _ H).
Qed.

Lemma list_sum_ones {A : Type} (l : list A) :
  list_sum (map (fun _ => 1) l) = length l.
Proof. induction l; simpl; congruence. Qed.

Lemma count_level_tally level evals : count_level level evals = tally level evals.
Proof. apply list_sum_ones. Qed.

Lemma tally_cons level e evals :
  tally level (e :: evals)
  = (if PyStr.eqb (risk_level e) level then 1 else 0) + tally level evals.
Proof.
  unfold tally. simpl. now destruct (PyStr.eqb (risk_level e) level).
Qed.

(** Decides the comparisons between level names. *)
Ltac eval_level_tests :=
  repeat match goal with
         | |- context [PyStr.eqb ?a ?b] =>
             let r := eval vm_compute in (PyStr.eqb a b) in
             change (PyStr.eqb a b) with r
         end.

(** Each evaluation is tallied at exactly one of the four levels. *)
Lemma tally_partition py cid md es :
  evaluated py cid md es ->
  tally high_risk es + tally medium_risk es + tally low_risk es + tally unknown es
  = length es.
Proof.
  induction 1 as [|kv e md es He _ IH]; [reflexivity|].
  rewrite !tally_cons. cbn [length].
  destruct (evaluation_levels py cid _ _ e He) as [[H | [H | H]] | [H _]];
    rewrite H; eval_level_tests; cbv iota; lia.
Qed.

Lemma tally_unknown_no_nan py cid md es :
  evaluated py cid md es ->
  Forall (fun kv => is_nan (snd kv) = false) md ->
  tally unknown es = 0.
Proof.
  induction 1 as [|kv e md es He _ IH]; intros Hn; [reflexivity|].
  inversion Hn as [|? ? Hkv Hmd]; subst.
  rewrite tally_cons, (IH Hmd).
  destruct (evaluation_levels py cid _ _ e He) as [[H | [H | H]] | [_ H]];
    [rewrite H; eval_level_tests; reflexivity .. | congruence].
Qed.

Lemma for_each_evaluate_metric py cid md acc r :
  for_each (evaluate_metric py cid) md acc = Ok r ->
  exists es, r = acc ++ es /\ evaluated py cid md es.
Proof.
  revert acc; induction md as [|[name v] md IH]; intros acc; simpl.
  - intros H. injection H as <-. exists []. split; [now rewrite app_nil_r | constructor].
  - destruct (evaluation py cid name v) as [e|] eqn:E; [|discriminate].
    cbn [bind]. intros H. apply IH in H as (es & -> & Hes).
    exists (e :: es). split; [now rewrite <- app_assoc|].
    constructor; assumption.
Qed.

Lemma for_each_evaluate_customer py metrics acc r :
  for_each (evaluate_customer py) metrics acc = Ok r ->
  exists ess,
    r = acc ++ concat ess
    /\ Forall2 (fun item es => evaluated py (fst item) (snd item) es) metrics ess.
Proof.
  revert acc; induction metrics as [|[cid md] metrics IH]; intros acc; simpl.
  - intros H. injection H as <-. exists []. split; [now rewrite app_nil_r | constructor].
  - destruct (for_each (evaluate_metric py cid) md acc) as [r1|] eqn:E; [|discriminate].
    cbn [bind]. intros H.
    apply for_each_evaluate_metric in E as (es & -> & Hes).
    apply IH in H as (ess & -> & Hess).
    exists (es :: ess). split; [simpl; now rewrite <- app_assoc|].
    constructor; assumption.
Qed.

(** The evaluations are those of the entries of the mapping, in order. *)
Lemma evaluated_entries py metrics ess :
  Forall2 (fun item es => evaluated py (fst item) (snd item) es) metrics ess ->
  Forall2 (fun t e => evaluation py (fst (fst t)) (snd (fst t)) (snd t) = Ok e)
    (entries metrics) (concat ess).
Proof.
  induction 1 as [|[cid md] es metrics ess Hes _ IH]; [constructor|].
  unfold entries. simpl. apply Forall2_app; [|exact IH].
  unfold evaluated in Hes. simpl in Hes.
  induction Hes; simpl; constructor; auto.
Qed.

Lemma evaluated_customer_id py cid md es :
  evaluated py cid md es -> Forall (fun e => customer_id e = cid) es.
Proof.
  induction 1 as [|kv e md es He _ IH]; constructor; [|exact IH].
  now apply evaluation_fields in He.
Qed.

Lemma filter_all {A : Type} (p : A -> bool) (l : list A) :
  Forall (fun x => p x = true) l -> filter p l = l.
Proof. induction 1 as [|x l Hx _ IH]; simpl; [|rewrite Hx, IH]; reflexivity. Qed.

Lemma filter_none {A : Type} (p : A -> bool) (l : list A) :
  Forall (fun x => p x = false) l -> filter p l = [].
Proof. induction 1 as [|x l Hx _ IH]; simpl; [|rewrite Hx, IH]; reflexivity. Qed.

Lemma filter_customer_same cid es :
  Forall (fun e => customer_id e = cid) es ->
  filter (fun e => PyStr.eqb (customer_id e) cid) es = es.
Proof.
  intros H. apply filter_all. eapply Forall_impl; [|exact H].
  intros e ->. apply eqb_refl.
Qed.

Lemma filter_customer_other cid cid' es :
  cid' <> cid ->
  Forall (fun e => customer_id e = cid') es ->
  filter (fun e => PyStr.eqb (customer_id e) cid) es = [].
Proof.
  intros Hne H. apply filter_none. eapply Forall_impl; [|exact H].
  intros e ->. now apply eqb_neq.
Qed.

Lemma filter_concat_absent py cid metrics ess :
  Forall2 (fun item es => evaluated py (fst item) (snd item) es) metrics ess ->
  ~ In cid (keys metrics) ->
  filter (fun e => PyStr.eqb (customer_id e) cid) (concat ess) = [].
Proof.
  induction 1 as [|[cid' md] es metrics ess Hes _ IH]; intros Hnot; [reflexivity|].
  simpl in *. rewrite filter_app, IH by tauto.
  rewrite (filter_customer_other cid cid' es); [reflexivity | intros ->; tauto |].
  exact (evaluated_customer_id py cid' md es Hes).
Qed.

(** With one entry per customer, selecting the evaluations of a customer
    out of the whole sequence gives back the evaluations of its metrics. *)
Lemma filter_concat_own py metrics ess :
  NoDup (keys metrics) ->
  Forall2 (fun item es => evaluated py (fst item) (snd item) es) metrics ess ->
  Forall (fun item =>
            evaluated py (fst item) (snd item)
              (filter (fun e => PyStr.eqb (customer_id e) (fst item)) (concat ess)))
    metrics.
Proof.
  intros Hnd H. revert Hnd.
  induction H as [|[cid md] es metrics ess Hes Hrest IH]; intros Hnd; [constructor|].
  simpl in *. inversion Hnd as [|? ? Hnot Hnd']; subst.
  constructor.
  - simpl. rewrite filter_app.
    rewrite (filter_customer_same cid es (evaluated_customer_id py cid md es Hes)).
    rewrite (filter_concat_absent py cid metrics ess Hrest Hnot).
    now rewrite app_nil_r.
  - specialize (IH Hnd'). rewrite Forall_forall in IH |- *.
    intros [cid' md'] Hin. simpl. rewrite filter_app.
    rewrite (filter_customer_other cid' cid es).
    + exact (IH _ Hin).
    + intros ->. apply Hnot. unfold keys. apply in_map_iff. now exists (cid', md').
    + exact (evaluated_customer_id py cid md es Hes).
Qed.

Lemma fold_left_append_map {A B : Type} (f : A -> B) (l : list A) (acc : list B) :
  fold_left (fun out a => out ++ [f a]) l acc = acc ++ map f l.
Proof.
  revert acc; induction l as [|a l IH]; intros acc; simpl.
  - now rewrite app_nil_r.
  - now rewrite IH, <- app_assoc.
Qed.

(** What the node computes: the evaluations of the entries and one report
    per key of the mapping. *)
Lemma evaluate_risks_unfold py state state' :
  evaluate_risks py state = Ok state' ->
  exists ess,
    Forall2 (fun item es => evaluated py (fst item) (snd item) es)
      (customer_metrics state) ess
    /\ for_each (evaluate_customer py) (customer_metrics state) [] = Ok (concat ess)
    /\ state' =
       set_customer_reports (set_risk_evaluations state (concat ess))
         (map (customer_report (concat ess)) (keys (customer_metrics state))).
Proof.
  unfold evaluate_risks.
  destruct (for_each (evaluate_customer py) (customer_metrics state) []) as [evals|] eqn:E;
    [|discriminate].
  cbn [bind]. intros H. injection H as <-.
  apply for_each_evaluate_customer in E as (ess & -> & Hess).
  exists ess. split; [exact Hess|]. split; [reflexivity|].
  now rewrite fold_left_append_map.
Qed.

Lemma evaluate_risk_level_known name v :
  known_metric name ->
  exists level range, evaluate_risk_level name v = Ok (level, range).
Proof.
  intros [-> | [-> | ->]]; unfold evaluate_risk_level;
    unfold dict_getitem, thresholds, dict_get;
    eval_level_tests; cbv iota; cbn [bind].
  - match goal with |- context [first_band ?rows v] =>
      destruct (first_band rows v) as [level range] end.
    eauto.
  - destruct (py_lt v (PyInt 70)); [|destruct (py_le v (PyInt 85))]; eauto.
  - match goal with |- context [first_band ?rows v] =>
      destruct (first_band rows v) as [level range] end.
    eauto.
Qed.

(** The node returns on every mapping whose metric names are known and
    whose values fit a [float]: in particular on what the parser builds
    from integers within the binary64 range. *)
Lemma evaluate_risks_returns py state :
  Forall (fun item =>
            Forall (fun kv => known_metric (fst kv)
                              /\ exists f, validate_float (snd kv) = Ok f)
              (snd item))
    (customer_metrics state) ->
  exists state', evaluate_risks py state = Ok state'.
Proof.
  intros H. unfold evaluate_risks.
  assert (Hloop : forall acc, exists evals,
             for_each (evaluate_customer py) (customer_metrics state) acc = Ok evals).
  { induction H as [|[cid md] metrics Hmd _ IH]; intros acc; simpl; [eauto|].
    assert (Hinner : forall acc', exists evals,
               for_each (evaluate_metric py cid) md acc' = Ok evals).
    { simpl in Hmd. induction Hmd as [|[name v] md [Hk [f Hf]] _ IHmd];
        intros acc'; simpl; [eauto|].
      simpl in Hk, Hf. unfold evaluation.
      destruct (evaluate_risk_level_known name v Hk) as (level & range & ->).
      cbn [bind]. rewrite Hf. cbn [bind]. apply IHmd. }
    destruct (Hinner acc) as [evals ->]. cbn [bind]. apply IH. }
  destruct (Hloop []) as [evals ->]. cbn [bind]. eauto.
Qed.

(** What the specification asks of the report of one customer, with the
    evaluations at the "Unknown" level counted apart: they are listed in
    [risks] and tallied by none of the three counts. *)
Definition rollup_matches (cid : str) (md : dict pynum) (report : CustomerRiskReport)
  : Prop :=
  report_customer_id report = cid
  /\ length (risks report) = length md
  /\ high_risk_count report = tally high_risk (risks report)
  /\ medium_risk_count report = tally medium_risk (risks report)
  /\ low_risk_count report = tally low_risk (risks report)
  /\ high_risk_count report + medium_risk_count report + low_risk_count report
     + tally unknown (risks report) = length md
  /\ (Forall (fun kv => is_nan (snd kv) = false) md ->
      high_risk_count report + medium_risk_count report + low_risk_count report
      = length md).

Lemma Forall2_map_self {A B : Type} (P : A -> B -> Prop) (g : A -> B) (l : list A) :
  Forall (fun x => P x (g x)) l -> Forall2 P l (map g l).
Proof. induction 1; simpl; constructor; auto. Qed.

Lemma customer_report_rollup py cid md evals :
  evaluated py cid md (filter (fun e => PyStr.eqb (customer_id e) cid) evals) ->
  rollup_matches cid md (customer_report evals cid).
Proof.
  intros H. unfold rollup_matches, customer_report.
  cbn [report_customer_id risks high_risk_count medium_risk_count low_risk_count].
  set (own := filter (fun e => PyStr.eqb (customer_id e) cid) evals) in *.
  rewrite !count_level_tally.
  pose proof (Forall2_length H) as Hlen.
  pose proof (tally_partition py cid md own H) as Hsum.
  repeat split; try reflexivity; try lia.
  intros Hn. pose proof (tally_unknown_no_nan py cid md own H Hn). lia.
Qed.

(** C5 (amended).  For every mapping (one entry per customer) on which the
    aggregation stage returns, there is one report per customer, in the
    order of the mapping; its [risks] has as many evaluations as the
    customer has metrics, each count is the number of contained
    evaluations at its level, and the three counts together with the
    evaluations at the "Unknown" level add up to the number of metrics;
    when no value of the customer is NaN the three counts alone do. *)
Theorem customer_report_counts (py : Interp) (state state' : ComplianceState) :
  NoDup (keys (customer_metrics state)) ->
  evaluate_risks py state = Ok state' ->
  Forall2 (fun item report => rollup_matches (fst item) (snd item) report)
    (customer_metrics state) (customer_reports state').
Proof.
  intros Hnd H.
  apply evaluate_risks_unfold in H as (ess & Hess & _ & ->).
  cbn [customer_reports set_customer_reports].
  unfold keys. rewrite map_map. apply Forall2_map_self.
  pose proof (filter_concat_own py _ ess Hnd Hess) as Hown.
  eapply Forall_impl; [|exact Hown].
  intros [cid md] Hitem. simpl in *. now apply (customer_report_rollup py).
Qed.

Definition sample_metrics : dict (dict pynum) :=
  [ (u "C1", metric_record 3 90 55) ].

Lemma customer_report_counts_witness :
  exists state',
    evaluate_risks ascii_interp (set_customer_metrics initial_state sample_metrics)
      = Ok state'
    /\ Forall2 (fun item report => rollup_matches (fst item) (snd item) report)
         sample_metrics (customer_reports state')
    /\ map (fun r => (high_risk_count r, medium_risk_count r, low_risk_count r))
         (customer_reports state') = [(0, 1, 2)].
Proof.
  destruct (evaluate_risks ascii_interp
              (set_customer_metrics initial_state sample_metrics)) as [state'|] eqn:E;
    [|vm_compute in E; discriminate E].
  exists state'. split; [reflexivity|]. split.
  - apply (customer_report_counts ascii_interp
             (set_customer_metrics initial_state sample_metrics) state').
    + repeat constructor. intros [].
    + exact E.
  - vm_compute in E. injection E as <-. reflexivity.
Defined.

(** C5 as stated fails on a NaN value: ['negative_accum_count'] with NaN
    is classified "Unknown", so the customer has one metric and one
    evaluation while the three counts are all 0. *)
Lemma nan_value_is_counted_nowhere :
  NoDup (keys [ (u "C1", [ (negative_accum_count, nan) ]) ])
  /\ (forall py,
        exists state' report,
          evaluate_risks py
            (set_customer_metrics initial_state
               [ (u "C1", [ (negative_accum_count, nan) ]) ]) = Ok state'
          /\ customer_reports state' = [report]
          /\ length (risks report) = 1
          /\ high_risk_count report + medium_risk_count report
             + low_risk_count report = 0).
Proof.
  split.
  - repeat constructor. intros [].
  - intros py. eexists. eexists. split; [reflexivity|].
    repeat split.
Qed.

(** C9.  The stage reads the metric mapping only and starts from an empty
    sequence: run again on its own result it returns that result, on any
    state with the same mapping it yields the same evaluations, and these
    are the evaluations of the entries of the mapping, customers in the
    order of the mapping and metrics in the order of each record. *)
Theorem evaluate_risks_idempotent (py : Interp) (state state1 : ComplianceState) :
  evaluate_risks py state = Ok state1 ->
  evaluate_risks py state1 = Ok state1
  /\ (forall other,
        customer_metrics other = customer_metrics state ->
        exists other1,
          evaluate_risks py other = Ok other1
          /\ risk_evaluations other1 = risk_evaluations state1)
  /\ Forall2 (fun t e => evaluation py (fst (fst t)) (snd (fst t)) (snd t) = Ok e)
       (entries (customer_metrics state)) (risk_evaluations state1)
  /\ length (risk_evaluations state1) = length (entries (customer_metrics state)).
Proof.
  intros H.
  apply evaluate_risks_unfold in H as (ess & Hess & Hloop & ->).
  assert (Hentries :
            Forall2 (fun t e => evaluation py (fst (fst t)) (snd (fst t)) (snd t) = Ok e)
              (entries (customer_metrics state)) (concat ess))
    by now apply evaluated_entries.
  repeat split.
  - unfold evaluate_risks.
    cbn [customer_metrics set_customer_reports set_risk_evaluations].
    rewrite Hloop. cbn [bind]. rewrite fold_left_append_map. reflexivity.
  - intros other Hsame. unfold evaluate_risks. rewrite Hsame, Hloop. cbn [bind].
    eexists. split; reflexivity.
  - exact Hentries.
  - cbn [risk_evaluations set_customer_reports set_risk_evaluations].
    symmetry. exact (Forall2_length Hentries).
Qed.

Lemma evaluate_risks_idempotent_witness :
  exists state1,
    evaluate_risks ascii_interp (set_customer_metrics initial_state sample_metrics)
      = Ok state1
    /\ evaluate_risks ascii_interp state1 = Ok state1
    /\ map risk_level (risk_evaluations state1) = [low_risk; low_risk; medium_risk].
Proof.
  destruct (evaluate_risks ascii_interp
              (set_customer_metrics initial_state sample_metrics)) as [state1|] eqn:E;
    [|vm_compute in E; discriminate E].
  exists state1. split; [reflexivity|]. split.
  - exact (proj1 (evaluate_risks_idempotent ascii_interp
                    (set_customer_metrics initial_state sample_metrics) state1 E)).
  - vm_compute in E. injection E as <-. reflexivity.
Defined.

(** ** [generate_report] *)

(** The sections of the report, as the specification lists them. *)

Definition title_banner : list str :=
  [ times 61%N 80;
    u "340B PROGRAM COMPLIANCE RISK DETECTION REPORT";
    times 61%N 80;
    [] ].

Definition summary_section (summary : str) : list str :=
  [ u "EXECUTIVE SUMMARY"; times 45%N 80; summary; [] ].

Definition analysis_heading : list str :=
  [ u "CUSTOMER RISK ANALYSIS"; times 45%N 80 ].

Definition risk_block (py : Interp) (risk : RiskEvaluation) : list str :=
  [ nl ++ u "  • " ++ metric_name risk;
    u "    Value: " ++ float_str py (value risk);
    u "    Risk Level: " ++ risk_level risk;
    u "    Threshold: " ++ threshold_range risk;
    u "    Description: " ++ explanation risk ].

Definition customer_block (py : Interp) (report : CustomerRiskReport) : list str :=
  [ nl ++ u "Customer: " ++ report_customer_id report;
    u "  High Risk Issues: " ++ of_nat (high_risk_count report);
    u "  Medium Risk Issues: " ++ of_nat (medium_risk_count report);
    u "  Low Risk Issues: " ++ of_nat (low_risk_count report) ]
  ++ flat_map (risk_block py) (risks report).

Definition regulatory_appendix (regulatory_context : str) : list str :=
  [ [];
    times 61%N 80;
    u "REGULATORY CONTEXT";
    times 61%N 80;
    firstn 1000 regulatory_context;
    [] ].

Definition timestamp_footer (w : Collaborators) : list str :=
  [ u "Report Generated: " ++ strip (date_u w); times 61%N 80 ].

(** The report with [summary] in its executive-summary section. *)
Definition report_with (py : Interp) (w : Collaborators) (state : ComplianceState)
  (summary : str) : str :=
  join nl
    (title_banner
     ++ summary_section summary
     ++ analysis_heading
     ++ flat_map (customer_block py) (customer_reports state)
     ++ regulatory_appendix (regulatory_updates state)
     ++ timestamp_footer w).

(** The prompt around the excerpt of the regulatory context. *)
Definition prompt_before (py : Interp) (state : ComplianceState) : str :=
  u "Based on the following compliance analysis, generate a brief executive summary:"
  ++ nl ++ nl
  ++ u "Knowledge Base:" ++ nl
  ++ knowledge_base state ++ nl ++ nl
  ++ u "High-Risk Customers: "
  ++ of_nat (length (filter (fun r => 0 <? high_risk_count r) (customer_reports state)))
  ++ nl ++ nl
  ++ u "Details:" ++ nl
  ++ json_dumps py (customer_reports state) ++ nl ++ nl
  ++ u "Recent Regulatory Context:" ++ nl.

Definition prompt_after : str :=
  u "..." ++ nl ++ nl
  ++ u "Provide a 2-3 sentence summary highlighting the most critical risks detected.".

Lemma fold_left_risk_lines py risks acc :
  fold_left (risk_lines py) risks acc = acc ++ flat_map (risk_block py) risks.
Proof.
  revert acc; induction risks as [|risk risks IH]; intros acc;
    cbn [fold_left flat_map].
  - now rewrite app_nil_r.
  - rewrite IH. unfold risk_lines, risk_block.
    rewrite <- !app_assoc. reflexivity.
Qed.

Lemma fold_left_customer_lines py reports acc :
  fold_left (customer_lines py) reports acc
  = acc ++ flat_map (customer_block py) reports.
Proof.
  revert acc; induction reports as [|report reports IH]; intros acc;
    cbn [fold_left flat_map].
  - now rewrite app_nil_r.
  - rewrite IH. unfold customer_lines, customer_block.
    rewrite fold_left_risk_lines. rewrite <- !app_assoc. reflexivity.
Qed.

Lemma generate_report_layout py w state :
  final_report (generate_report py w state)
  = report_with py w state (executive_summary py w state).
Proof.
  unfold generate_report, report_with.
  cbn [final_report set_final_report]. f_equal.
  rewrite fold_left_customer_lines.
  unfold title_banner, summary_section, analysis_heading, regulatory_appendix,
    timestamp_footer.
  rewrite <- !app_assoc. reflexivity.
Qed.

Lemma summary_prompt_excerpt py state :
  summary_prompt py state
  = prompt_before py state ++ firstn 500 (regulatory_updates state) ++ prompt_after.
Proof.
  unfold summary_prompt, prompt_before, prompt_after.
  now rewrite <- !app_assoc.
Qed.

Lemma firstn_firstn_le {A : Type} (n m : nat) (l : list A) :
  n <= m -> firstn n (firstn m l) = firstn n l.
Proof.
  intros H. rewrite firstn_firstn. now rewrite Nat.min_l.
Qed.

(** C8.  The report is, in this order: the title banner, the executive
    summary, one block per customer report with its three counts followed
    by the five lines of each evaluation, the regulatory context cut to
    its first 1000 characters, and the timestamp footer.  The prompt sent
    to the summarizer embeds the first 500 characters of the same text:
    a prefix of the appendix, and strictly shorter than it once the text
    has more than 500 characters. *)
Theorem report_section_order (py : Interp) (w : Collaborators)
  (state : ComplianceState) :
  final_report (generate_report py w state)
  = join nl
      (title_banner
       ++ summary_section (executive_summary py w state)
       ++ analysis_heading
       ++ flat_map (customer_block py) (customer_reports state)
       ++ regulatory_appendix (regulatory_updates state)
       ++ timestamp_footer w)
  /\ nth_error (regulatory_appendix (regulatory_updates state)) 4
     = Some (firstn 1000 (regulatory_updates state))
  /\ summary_prompt py state
     = prompt_before py state ++ firstn 500 (regulatory_updates state) ++ prompt_after
  /\ firstn 500 (firstn 1000 (regulatory_updates state))
     = firstn 500 (regulatory_updates state)
  /\ length (firstn 500 (regulatory_updates state)) <= 500
  /\ length (firstn 1000 (regulatory_updates state)) <= 1000
  /\ (500 < length (regulatory_updates state) ->
      length (firstn 500 (regulatory_updates state))
      < length (firstn 1000 (regulatory_updates state))).
Proof.
  split; [apply generate_report_layout|].
  split; [reflexivity|].
  split; [apply summary_prompt_excerpt|].
  split; [apply firstn_firstn_le; lia|].
  rewrite !length_firstn. lia.
Qed.

(** C7.  When the summarizer call raises, the executive-summary section
    holds "Error generating summary: " followed by the message of the
    exception, and every other line of the report is the one a run with a
    working summarizer produces. *)
Theorem summary_failure_keeps_report (py : Interp) (w : Collaborators)
  (state : ComplianceState) (message : str) :
  model_invoke w (summary_prompt py state) = Failed message ->
  final_report (generate_report py w state)
  = report_with py w state (u "Error generating summary: " ++ message)
  /\ (forall w' content,
        date_u w' = date_u w ->
        model_invoke w' (summary_prompt py state) = Returned content ->
        final_report (generate_report py w' state) = report_with py w state content).
Proof.
  intros H. split.
  - rewrite generate_report_layout. unfold executive_summary. now rewrite H.
  - intros w' content Hdate H'.
    rewrite generate_report_layout. unfold executive_summary. rewrite H'.
    unfold report_with, timestamp_footer. now rewrite Hdate.
Qed.

Lemma summary_failure_keeps_report_witness :
  final_report (generate_report ascii_interp failing_services
                  (set_customer_metrics initial_state sample_metrics))
  = report_with ascii_interp failing_services
      (set_customer_metrics initial_state sample_metrics)
      (u "Error generating summary: service unreachable").
Proof.
  exact (proj1 (summary_failure_keeps_report ascii_interp failing_services
                  (set_customer_metrics initial_state sample_metrics)
                  unreachable eq_refl)).
Defined.

(** ** Degraded runs *)

(** The knowledge-base query for the risk indicators raises. *)
Definition kb_down (w : Collaborators) : Prop :=
  exists message, retrieve_and_generate w knowledge_request = Failed message.

(** The search tool raises on every query and so does the HTTP fallback. *)
Definition search_down (w : Collaborators) : Prop :=
  (forall query, exists message, search_run w query = Failed message)
  /\ (forall url, exists message, requests_get w url = Failed message).

(** The regulatory context when the search is down: the three queries,
    each with the canned guidance that matches it. *)
Definition degraded_context : str :=
  join nl
    [ u "Query: 340B program compliance risks 2025 2026" ++ nl
      ++ u "Recent regulatory guidance emphasizes stronger controls on accumulation tracking and diversion prevention."
      ++ nl;
      u "Query: healthcare diversion compliance negative accumulation" ++ nl
      ++ u "HRSA guidance recommends monitoring negative accumulation patterns as early indicators of inventory management issues."
      ++ nl;
      u "Query: patient eligibility matching audit requirements" ++ nl
      ++ u "Regulatory context: Continuous monitoring of compliance metrics is essential for 340B program integrity."
      ++ nl ].

(** The search never raises: the handler in [search_regulatory_updates]
    is not reached. *)
Lemma duckduckgo_search_returns py w query :
  exists results, duckduckgo_search py w query = Returned results.
Proof.
  unfold duckduckgo_search.
  destruct (search_run w query); [eauto|].
  destruct (scrape py w query); eauto.
Qed.

Lemma duckduckgo_search_down py w query :
  search_down w ->
  duckduckgo_search py w query
  = Returned (canned_guidance py regulatory_suggestions query).
Proof.
  intros [Htool Hget]. unfold duckduckgo_search, scrape.
  destruct (Htool query) as [m ->].
  destruct (quote py query) as [quoted|]; [|reflexivity].
  destruct (Hget (u "https://html.duckduckgo.com/?q=" ++ quoted)) as [m' ->].
  reflexivity.
Qed.

Lemma search_regulatory_updates_down py w state :
  search_down w ->
  regulatory_updates (search_regulatory_updates py w state) = degraded_context.
Proof.
  intros H. unfold search_regulatory_updates.
  cbn [regulatory_updates set_regulatory_updates]. f_equal.
  unfold search_queries. cbn [fold_left]. unfold search_one.
  rewrite !(duckduckgo_search_down py w _ H).
  vm_compute. reflexivity.
Qed.

Lemma retrieve_knowledge_base_down w state :
  kb_down w -> knowledge_base (retrieve_knowledge_base w state) = [].
Proof.
  intros [m H]. unfold retrieve_knowledge_base. now rewrite H.
Qed.

Lemma evaluate_risks_frame py state state' :
  evaluate_risks py state = Ok state' ->
  knowledge_base state' = knowledge_base state
  /\ regulatory_updates state' = regulatory_updates state
  /\ customer_metrics state' = customer_metrics state.
Proof.
  intros H. apply evaluate_risks_unfold in H as (ess & _ & _ & ->).
  repeat split.
Qed.

Lemma join_head_not_nil sep p rest : p <> [] -> join sep (p :: rest) <> [].
Proof.
  intros Hp. destruct rest as [|q rest]; cbn [join]; [exact Hp|].
  destruct p; [contradiction | discriminate].
Qed.

Lemma report_with_not_empty py w state summary : report_with py w state summary <> [].
Proof.
  unfold report_with, title_banner. cbn [app].
  apply join_head_not_nil. unfold times. cbn [repeat]. discriminate.
Qed.

(** The report node writes [final_report] and nothing else. *)
Lemma generate_report_frame py w state :
  customer_metrics (generate_report py w state) = customer_metrics state
  /\ knowledge_base (generate_report py w state) = knowledge_base state
  /\ risk_evaluations (generate_report py w state) = risk_evaluations state
  /\ customer_reports (generate_report py w state) = customer_reports state
  /\ regulatory_updates (generate_report py w state) = regulatory_updates state.
Proof. unfold generate_report. repeat split. Qed.

(** The search node writes [regulatory_updates] and nothing else. *)
Lemma search_regulatory_updates_frame py w state :
  customer_metrics (search_regulatory_updates py w state) = customer_metrics state
  /\ knowledge_base (search_regulatory_updates py w state) = knowledge_base state
  /\ risk_evaluations (search_regulatory_updates py w state) = risk_evaluations state
  /\ customer_reports (search_regulatory_updates py w state) = customer_reports state
  /\ final_report (search_regulatory_updates py w state) = final_report state.
Proof. unfold search_regulatory_updates. repeat split. Qed.

(** The prompt, and with it the summary, reads the reports, the knowledge
    base and the regulatory context only. *)
Lemma summary_prompt_reads py s s' :
  customer_reports s' = customer_reports s ->
  knowledge_base s' = knowledge_base s ->
  regulatory_updates s' = regulatory_updates s ->
  summary_prompt py s' = summary_prompt py s.
Proof. intros H1 H2 H3. unfold summary_prompt. now rewrite H1, H2, H3. Qed.

Lemma report_with_reads py w s s' summary :
  customer_reports s' = customer_reports s ->
  regulatory_updates s' = regulatory_updates s ->
  report_with py w s' summary = report_with py w s summary.
Proof. intros H1 H2. unfold report_with. now rewrite H1, H2. Qed.

(** C6 (amended).  When the knowledge-base query and the search both fail
    and the run reaches the report, the report text is not empty and has
    the usual layout; the knowledge-base text is empty; the regulatory
    appendix is not: it is the whole fallback context, the three queries
    each followed by canned guidance; the executive summary is the
    summarizer's text, and an error text only when the summarizer call
    itself raises. *)
Theorem degraded_run (py : Interp) (w : Collaborators) (state state' : ComplianceState) :
  kb_down w ->
  search_down w ->
  workflow py w state = Ok state' ->
  knowledge_base state' = []
  /\ regulatory_updates state' = degraded_context
  /\ final_report state' = report_with py w state' (executive_summary py w state')
  /\ final_report state' <> []
  /\ nth_error (regulatory_appendix (regulatory_updates state')) 4
     = Some degraded_context
  /\ degraded_context <> []
  /\ (forall content,
        model_invoke w (summary_prompt py state') = Returned content ->
        executive_summary py w state' = content)
  /\ (forall message,
        model_invoke w (summary_prompt py state') = Failed message ->
        executive_summary py w state' = u "Error generating summary: " ++ message).
Proof.
  intros Hkb Hsearch. unfold workflow.
  set (s2 := retrieve_knowledge_base w (retrieve_customer_metrics py w state)).
  destruct (evaluate_risks py s2) as [s3|] eqn:E; [|discriminate].
  cbn [bind]. intros H. injection H as <-.
  set (s4 := search_regulatory_updates py w s3).
  destruct (evaluate_risks_frame py s2 s3 E) as (Hk & _ & _).
  destruct (search_regulatory_updates_frame py w s3) as (_ & Hk4 & _ & Hr4 & _).
  fold s4 in Hk4, Hr4.
  destruct (generate_report_frame py w s4) as (_ & Hk5 & _ & Hr5 & Hu5).
  assert (Hreg : regulatory_updates s4 = degraded_context)
    by (apply search_regulatory_updates_down; exact Hsearch).
  assert (Hprompt : summary_prompt py (generate_report py w s4) = summary_prompt py s4)
    by (apply summary_prompt_reads; assumption).
  assert (Hlayout : final_report (generate_report py w s4)
                    = report_with py w (generate_report py w s4)
                        (executive_summary py w (generate_report py w s4))).
  { rewrite generate_report_layout.
    rewrite (report_with_reads py w s4 (generate_report py w s4) _ Hr5 Hu5).
    unfold executive_summary. now rewrite Hprompt. }
  split.
  { rewrite Hk5, Hk4, Hk. apply retrieve_knowledge_base_down. exact Hkb. }
  split; [now rewrite Hu5|].
  split; [exact Hlayout|].
  split; [rewrite Hlayout; apply report_with_not_empty|].
  split.
  { rewrite Hu5, Hreg. unfold regulatory_appendix. cbn [nth_error].
    apply f_equal. vm_compute. reflexivity. }
  split; [vm_compute; discriminate|].
  split.
  - intros content Hc. unfold executive_summary. now rewrite Hc.
  - intros message Hm. unfold executive_summary. now rewrite Hm.
Qed.

Lemma degraded_run_witness :
  exists state',
    workflow ascii_interp failing_services initial_state = Ok state'
    /\ knowledge_base state' = []
    /\ regulatory_updates state' = degraded_context
    /\ final_report state' <> [].
Proof.
  destruct (workflow ascii_interp failing_services initial_state) as [state'|] eqn:E;
    [|vm_compute in E; discriminate E].
  exists state'.
  assert (Hkb : kb_down failing_services) by (exists unreachable; reflexivity).
  assert (Hs : search_down failing_services)
    by (split; intros ?; exists unreachable; reflexivity).
  destruct (degraded_run ascii_interp failing_services initial_state state' Hkb Hs E)
    as (H1 & H2 & _ & H4 & _).
  auto.
Defined.

(** C6 as stated fails: with the knowledge base and the search down and
    the summarizer up, the regulatory appendix is not empty and the
    executive summary is the narrative, not an error text. *)
Lemma degraded_appendix_is_not_empty :
  kb_down summarizing_services
  /\ search_down summarizing_services
  /\ exists state',
       workflow ascii_interp summarizing_services initial_state = Ok state'
       /\ nth_error (regulatory_appendix (regulatory_updates state')) 4
          = Some degraded_context
       /\ degraded_context <> []
       /\ executive_summary ascii_interp summarizing_services state' = narrative
       /\ final_report state'
          = report_with ascii_interp summarizing_services state' narrative.
Proof.
  split; [exists unreachable; reflexivity|].
  split; [split; intros ?; exists unreachable; reflexivity|].
  eexists. split; [reflexivity|].
  repeat split; try (vm_compute; reflexivity).
  vm_compute. discriminate.
Qed.

(** * Further properties of the code *)

(** ** The order of numbers *)

Lemma pow2_pos (k : Z) : (0 <= k -> 0 < 2 ^ k)%Z.
Proof. intros H. apply Z.pow_pos_nonneg; lia. Qed.

Lemma mul_compare_pos (a b p : Z) : (0 < p -> (a * p ?= b * p) = (a ?= b))%Z.
Proof.
  intros Hp. destruct (Z.compare_spec a b) as [-> | H | H].
  - apply Z.compare_refl.
  - apply Z.compare_lt_iff. nia.
  - apply Z.compare_gt_iff. nia.
Qed.

(** Comparing two dyadic numbers at any exponent below both gives the
    same answer. *)
Lemma dyadic_compare_scale (m1 e1 m2 e2 e : Z) :
  (e <= Z.min e1 e2)%Z ->
  ((m1 * 2 ^ (e1 - e)) ?= (m2 * 2 ^ (e2 - e)))%Z
  = exact_compare (Dyadic m1 e1) (Dyadic m2 e2).
Proof.
  intros He. cbn [exact_compare].
  set (d := Z.min e1 e2) in *.
  assert (H1 : (e1 - e = (e1 - d) + (d - e))%Z) by lia.
  assert (H2 : (e2 - e = (e2 - d) + (d - e))%Z) by lia.
  rewrite H1, H2, !Z.pow_add_r by lia.
  rewrite !Z.mul_assoc.
  apply mul_compare_pos. apply pow2_pos. lia.
Qed.

Lemma Zcompare_le_lt_trans (a b c : Z) :
  (a ?= b)%Z <> Gt -> (b ?= c)%Z = Lt -> (a ?= c)%Z = Lt.
Proof. rewrite Z.compare_le_iff, !Z.compare_lt_iff. lia. Qed.

Lemma Zcompare_le_trans (a b c : Z) :
  (a ?= b)%Z <> Gt -> (b ?= c)%Z <> Gt -> (a ?= c)%Z <> Gt.
Proof. rewrite !Z.compare_le_iff. lia. Qed.

Definition exact_le (x y : exact) : Prop := exact_compare x y <> Gt.
Definition exact_lt (x y : exact) : Prop := exact_compare x y = Lt.

Lemma exact_le_lt_trans (x y z : exact) :
  exact_le x y -> exact_lt y z -> exact_lt x z.
Proof.
  unfold exact_le, exact_lt.
  destruct x as [|m1 e1|], y as [|m2 e2|], z as [|m3 e3|];
    try (cbn; congruence); try (cbn; intros; congruence).
  set (e := Z.min e1 (Z.min e2 e3)).
  rewrite <- (dyadic_compare_scale m1 e1 m2 e2 e) by (unfold e; lia).
  rewrite <- (dyadic_compare_scale m2 e2 m3 e3 e) by (unfold e; lia).
  rewrite <- (dyadic_compare_scale m1 e1 m3 e3 e) by (unfold e; lia).
  apply Zcompare_le_lt_trans.
Qed.

Lemma exact_le_trans (x y z : exact) :
  exact_le x y -> exact_le y z -> exact_le x z.
Proof.
  unfold exact_le.
  destruct x as [|m1 e1|], y as [|m2 e2|], z as [|m3 e3|];
    try (cbn; congruence); try (cbn; intros; congruence).
  set (e := Z.min e1 (Z.min e2 e3)).
  rewrite <- (dyadic_compare_scale m1 e1 m2 e2 e) by (unfold e; lia).
  rewrite <- (dyadic_compare_scale m2 e2 m3 e3 e) by (unfold e; lia).
  rewrite <- (dyadic_compare_scale m1 e1 m3 e3 e) by (unfold e; lia).
  apply Zcompare_le_trans.
Qed.

Lemma py_le_exact (a b : pynum) :
  py_le a b = true <->
  exists x y, exact_of a = Some x /\ exact_of b = Some y /\ exact_le x y.
Proof.
  unfold py_le, py_compare, exact_le. split.
  - destruct (exact_of a) as [x|], (exact_of b) as [y|]; try discriminate.
    intros H. exists x, y. repeat split.
    destruct (exact_compare x y); [discriminate .. | discriminate H].
  - intros (x & y & -> & -> & H). destruct (exact_compare x y); congruence.
Qed.

Lemma py_lt_exact (a b : pynum) :
  py_lt a b = true <->
  exists x y, exact_of a = Some x /\ exact_of b = Some y /\ exact_lt x y.
Proof.
  unfold py_lt, py_compare, exact_lt. split.
  - destruct (exact_of a) as [x|], (exact_of b) as [y|]; try discriminate.
    intros H. exists x, y. repeat split.
    destruct (exact_compare x y); [discriminate H | reflexivity | discriminate H].
  - intros (x & y & -> & -> & H). now rewrite H.
Qed.

Lemma py_le_trans (a b c : pynum) :
  py_le a b = true -> py_le b c = true -> py_le a c = true.
Proof.
  rewrite !py_le_exact.
  intros (x & y & Hx & Hy & Hxy) (y' & z & Hy' & Hz & Hyz).
  assert (y' = y) by congruence. subst y'.
  exists x, z. repeat split; auto. exact (exact_le_trans x y z Hxy Hyz).
Qed.

Lemma py_le_lt_trans (a b c : pynum) :
  py_le a b = true -> py_lt b c = true -> py_lt a c = true.
Proof.
  rewrite py_le_exact, !py_lt_exact.
  intros (x & y & Hx & Hy & Hxy) (y' & z & Hy' & Hz & Hyz).
  assert (y' = y) by congruence. subst y'.
  exists x, z. repeat split; auto. exact (exact_le_lt_trans x y z Hxy Hyz).
Qed.

Lemma py_le_not_nan (a b : pynum) : py_le a b = true -> is_nan a = false.
Proof.
  intros H. destruct (is_nan a) eqn:E; [|reflexivity].
  rewrite (py_le_nan a b E) in H. discriminate H.
Qed.

(** ** [evaluate_risk_level] on every number *)

Lemma negative_accum_eval (v : pynum) :
  evaluate_risk_level negative_accum_count v =
  Ok (if py_le v (PyInt 5) then (low_risk, u "0–5")
      else if py_le v (PyInt 15) then (medium_risk, u "6–15")
      else if py_le v inf then (high_risk, u ">15")
      else (unknown, unknown)).
Proof.
  unfold evaluate_risk_level, dict_getitem, thresholds, dict_get.
  eval_level_tests. cbv iota. reflexivity.
Qed.

Lemma referral_capture_eval (v : pynum) :
  evaluate_risk_level referral_capture_rate_percent v =
  Ok (if py_le v (PyInt 40) then (high_risk, u "<40")
      else if py_le v (PyInt 60) then (medium_risk, u "40–60")
      else if py_le v inf then (low_risk, u ">60")
      else (unknown, unknown)).
Proof.
  unfold evaluate_risk_level, dict_getitem, thresholds, dict_get.
  eval_level_tests. cbv iota. reflexivity.
Qed.

Lemma match_rate_eval (v : pynum) :
  evaluate_risk_level match_rate_percent v =
  Ok (if py_lt v (PyInt 70) then (high_risk, u "<70")
      else if py_le v (PyInt 85) then (medium_risk, u "70–85")
      else (low_risk, u ">85")).
Proof.
  unfold evaluate_risk_level. eval_level_tests. cbv iota.
  destruct (py_lt v (PyInt 70)), (py_le v (PyInt 85)); reflexivity.
Qed.

(** A name the classifier returns on is one of the three known names. *)
Lemma evaluate_risk_level_ok_known name v r :
  evaluate_risk_level name v = Ok r -> known_metric name.
Proof.
  unfold evaluate_risk_level, dict_getitem, thresholds, dict_get, known_metric.
  destruct (PyStr.eqb name match_rate_percent) eqn:E1.
  { apply eqb_eq in E1. intros _. right. left. exact E1. }
  destruct (PyStr.eqb negative_accum_count name) eqn:E2.
  { apply eqb_eq in E2. intros _. left. symmetry. exact E2. }
  destruct (PyStr.eqb match_rate_percent name) eqn:E3.
  { apply eqb_eq in E3. intros _. right. left. symmetry. exact E3. }
  destruct (PyStr.eqb referral_capture_rate_percent name) eqn:E4.
  { apply eqb_eq in E4. intros _. right. right. symmetry. exact E4. }
  discriminate.
Qed.

(** X1.  The classifier returns exactly on the three known metric names,
    whatever the value (NaN and the infinities included). *)
Theorem classifier_returns_iff_known (name : str) (v : pynum) :
  (exists level range, evaluate_risk_level name v = Ok (level, range))
  <-> known_metric name.
Proof.
  split.
  - intros (level & range & H). exact (evaluate_risk_level_ok_known name v _ H).
  - apply evaluate_risk_level_known.
Qed.

(** X2.  The ("Unknown", "Unknown") pair is returned in one situation
    only: the metric is ['negative_accum_count'] or
    ['referral_capture_rate_percent'] and the value is NaN, for which every
    comparison of the threshold loop is false. *)
Theorem unknown_pair_iff_nan (name : str) (v : pynum) :
  evaluate_risk_level name v = Ok (unknown, unknown)
  <-> (name = negative_accum_count \/ name = referral_capture_rate_percent)
      /\ is_nan v = true.
Proof.
  split.
  - intros H.
    destruct (evaluate_risk_level_ok_known name v _ H) as [-> | [-> | ->]].
    + split; [now left|].
      rewrite negative_accum_eval, py_le_inf in H.
      destruct (py_le v (PyInt 5)); [discriminate H|].
      destruct (py_le v (PyInt 15)); [discriminate H|].
      destruct (is_nan v); [reflexivity | discriminate H].
    + rewrite match_rate_eval in H.
      destruct (py_lt v (PyInt 70)); [discriminate H|].
      destruct (py_le v (PyInt 85)); discriminate H.
    + split; [now right|].
      rewrite referral_capture_eval, py_le_inf in H.
      destruct (py_le v (PyInt 40)); [discriminate H|].
      destruct (py_le v (PyInt 60)); [discriminate H|].
      destruct (is_nan v); [reflexivity | discriminate H].
  - intros [[-> | ->] Hn].
    + rewrite negative_accum_eval, !(py_le_nan v _ Hn). reflexivity.
    + rewrite referral_capture_eval, !(py_le_nan v _ Hn). reflexivity.
Qed.

(** X3.  A NaN match rate is not flagged: both tests of the special case
    are false on NaN, so the value lands in the last branch, Low Risk with
    range ">85". *)
Theorem nan_match_rate_is_low (v : pynum) :
  is_nan v = true ->
  evaluate_risk_level match_rate_percent v = Ok (low_risk, u ">85").
Proof.
  intros Hn. rewrite match_rate_eval.
  now rewrite (py_lt_nan v _ Hn), (py_le_nan v _ Hn).
Qed.

Lemma nan_match_rate_is_low_witness :
  evaluate_risk_level match_rate_percent nan = Ok (low_risk, u ">85").
Proof. exact (nan_match_rate_is_low nan eq_refl). Defined.

(** The severity of a level: Low, Medium, High in this order, anything
    else above them. *)
Definition tier_rank (level : str) : nat :=
  if PyStr.eqb level low_risk then 0
  else if PyStr.eqb level medium_risk then 1
  else if PyStr.eqb level high_risk then 2
  else 3.

Definition rank_of (name : str) (v : pynum) : nat :=
  match evaluate_risk_level name v with
  | Ok (level, _) => tier_rank level
  | Raise _ => 3
  end.

Lemma rank_negative_accum (v : pynum) :
  rank_of negative_accum_count v =
  if py_le v (PyInt 5) then 0
  else if py_le v (PyInt 15) then 1
  else if py_le v inf then 2 else 3.
Proof.
  unfold rank_of. rewrite negative_accum_eval.
  destruct (py_le v (PyInt 5)); [reflexivity|].
  destruct (py_le v (PyInt 15)); [reflexivity|].
  destruct (py_le v inf); reflexivity.
Qed.

Lemma rank_referral_capture (v : pynum) :
  rank_of referral_capture_rate_percent v =
  if py_le v (PyInt 40) then 2
  else if py_le v (PyInt 60) then 1
  else if py_le v inf then 0 else 3.
Proof.
  unfold rank_of. rewrite referral_capture_eval.
  destruct (py_le v (PyInt 40)); [reflexivity|].
  destruct (py_le v (PyInt 60)); [reflexivity|].
  destruct (py_le v inf); reflexivity.
Qed.

Lemma rank_match_rate (v : pynum) :
  rank_of match_rate_percent v =
  if py_lt v (PyInt 70) then 2
  else if py_le v (PyInt 85) then 1 else 0.
Proof.
  unfold rank_of. rewrite match_rate_eval.
  destruct (py_lt v (PyInt 70)); [reflexivity|].
  destruct (py_le v (PyInt 85)); reflexivity.
Qed.

(** X4.  The tiers follow the order of the values, for integers and
    floats alike: a larger negative-accumulation count is never in a less
    severe tier, and a larger match rate or referral capture rate is never
    in a more severe one. *)
Theorem tiers_are_monotone (a b : pynum) :
  py_le a b = true ->
  rank_of negative_accum_count a <= rank_of negative_accum_count b
  /\ rank_of match_rate_percent b <= rank_of match_rate_percent a
  /\ rank_of referral_capture_rate_percent b
     <= rank_of referral_capture_rate_percent a.
Proof.
  intros Hab.
  assert (Ha : py_le a inf = true)
    by (rewrite py_le_inf, (py_le_not_nan a b Hab); reflexivity).
  assert (Hb : py_le b inf = true).
  { rewrite py_le_inf. apply py_le_exact in Hab as (x & y & _ & Hy & _).
    unfold is_nan. now rewrite Hy. }
  assert (Hle : forall t, py_le b t = true -> py_le a t = true)
    by (intros t; apply py_le_trans; exact Hab).
  assert (Hlt : forall t, py_lt b t = true -> py_lt a t = true)
    by (intros t; apply py_le_lt_trans; exact Hab).
  split; [|split].
  - rewrite (rank_negative_accum a), (rank_negative_accum b), Ha, Hb.
    destruct (py_le b (PyInt 5)) eqn:B5; [now rewrite (Hle _ B5)|].
    destruct (py_le b (PyInt 15)) eqn:B15.
    + rewrite (Hle _ B15). destruct (py_le a (PyInt 5)); lia.
    + destruct (py_le a (PyInt 5)), (py_le a (PyInt 15)); lia.
  - rewrite (rank_match_rate a), (rank_match_rate b).
    destruct (py_lt b (PyInt 70)) eqn:B70; [now rewrite (Hlt _ B70)|].
    destruct (py_le b (PyInt 85)) eqn:B85.
    + rewrite (Hle _ B85). destruct (py_lt a (PyInt 70)); lia.
    + lia.
  - rewrite (rank_referral_capture a), (rank_referral_capture b), Ha, Hb.
    destruct (py_le b (PyInt 40)) eqn:B40; [now rewrite (Hle _ B40)|].
    destruct (py_le b (PyInt 60)) eqn:B60.
    + rewrite (Hle _ B60). destruct (py_le a (PyInt 40)); lia.
    + lia.
Qed.

Lemma tiers_are_monotone_witness :
  rank_of negative_accum_count (PyInt 5)
    <= rank_of negative_accum_count (PyFloat (S754_finite false 11 (-1)))
  /\ rank_of match_rate_percent (PyFloat (S754_finite false 11 (-1)))
     <= rank_of match_rate_percent (PyInt 5)
  /\ rank_of referral_capture_rate_percent (PyFloat (S754_finite false 11 (-1)))
     <= rank_of referral_capture_rate_percent (PyInt 5).
Proof.
  exact (tiers_are_monotone (PyInt 5) (PyFloat (S754_finite false 11 (-1))) eq_refl).
Defined.

(** ** [parse_csv_metrics] as a fold over the accepted lines *)

(** The customer identifier and the three integers a line stores, when
    the loop accepts it. *)
Definition line_record (py : Interp) (line : str) : option (str * (Z * Z * Z)) :=
  match strip line with
  | [] => None
  | _ =>
      if startswith (strip line) (u "customer_id") then None
      else
        match split (strip line) (u ",") with
        | f0 :: f1 :: f2 :: f3 :: _ =>
            match py_int py (strip f1), py_int py (strip f2), py_int py (strip f3) with
            | Some a, Some b, Some c => Some (strip f0, (a, b, c))
            | _, _, _ => None
            end
        | _ => None
        end
  end.

(** The records of the accepted lines, in the order of the lines. *)
Definition records (py : Interp) (lines : list str) : list (str * (Z * Z * Z)) :=
  flat_map (fun line => match line_record py line with
                        | Some r => [r]
                        | None => []
                        end) lines.

Definition store (metrics : dict (dict pynum)) (r : str * (Z * Z * Z))
  : dict (dict pynum) :=
  let '(cid, (a, b, c)) := r in dict_set metrics cid (metric_record a b c).

(** Adds a key at the end unless it is there. *)
Definition add_key (ks : list str) (k : str) : list str :=
  if existsb (PyStr.eqb k) ks then ks else ks ++ [k].

(** The distinct identifiers of a list, each at its first occurrence. *)
Definition first_seen (ids : list str) : list str := fold_left add_key ids [].

Lemma line_record_data py line cid a b c :
  line_record py line = Some (cid, (a, b, c)) <-> data_line py line cid a b c.
Proof.
  unfold line_record, data_line. split.
  - destruct (strip line) as [|ch l] eqn:Hl; [discriminate|].
    destruct (startswith (ch :: l) (u "customer_id")) eqn:Hh; [discriminate|].
    destruct (split (ch :: l) (u ",")) as [|f0 [|f1 [|f2 [|f3 rest]]]] eqn:Hs;
      try discriminate.
    destruct (py_int py (strip f1)) as [x|] eqn:Hx; [|discriminate].
    destruct (py_int py (strip f2)) as [y|] eqn:Hy; [|discriminate].
    destruct (py_int py (strip f3)) as [z|] eqn:Hz; [|discriminate].
    intros H. injection H as <- <- <- <-.
    split; [discriminate|]. split; [reflexivity|].
    exists f0, f1, f2, f3, rest. auto.
  - intros (Hne & Hh & f0 & f1 & f2 & f3 & rest & Hs & -> & Ha & Hb & Hc).
    destruct (strip line) as [|ch l]; [contradiction|].
    rewrite Hh, Hs, Ha, Hb, Hc. reflexivity.
Qed.

Lemma parse_line_store py metrics line :
  parse_line py metrics line
  = Ok (match line_record py line with
        | Some r => store metrics r
        | None => metrics
        end).
Proof.
  destruct (line_record py line) as [[cid [[a b] c]]|] eqn:E.
  - apply line_record_data in E. now apply parse_line_data.
  - destruct (parse_line_cases py metrics line)
      as [[H _] | (cid & a & b & c & Hd & _)]; [exact H|].
    apply line_record_data in Hd. congruence.
Qed.

Lemma for_each_parse_fold py lines metrics :
  for_each (parse_line py) lines metrics
  = Ok (fold_left store (records py lines) metrics).
Proof.
  revert metrics; induction lines as [|line lines IH]; intros metrics;
    [reflexivity|].
  cbn [for_each]. rewrite parse_line_store. cbn [bind]. rewrite IH.
  unfold records. cbn [flat_map]. rewrite fold_left_app.
  now destruct (line_record py line).
Qed.

Lemma parse_is_a_fold_lines py text :
  exists lines, parse_csv_metrics py text = Ok (fold_left store (records py lines) []).
Proof.
  destruct (csv_lines_returns text) as [lines Hlines]. exists lines.
  rewrite (parse_csv_metrics_unfold py text lines Hlines).
  apply for_each_parse_fold.
Qed.

(** X5.  The loop with its [try]/[except] is a fold: the result of the
    parser is the empty mapping into which the record of every accepted
    line is stored, line after line. *)
Theorem parse_is_a_fold (py : Interp) (text : str) :
  exists lines,
    csv_lines text = Ok lines
    /\ parse_csv_metrics py text = Ok (fold_left store (records py lines) []).
Proof.
  destruct (csv_lines_returns text) as [lines Hlines].
  exists lines. split; [exact Hlines|].
  rewrite (parse_csv_metrics_unfold py text lines Hlines).
  apply for_each_parse_fold.
Qed.

Lemma keys_dict_set {V : Type} (d : dict V) (k : str) (v : V) :
  keys (dict_set d k v) = add_key (keys d) k.
Proof.
  unfold add_key, keys. induction d as [|[k' v'] d IH]; [reflexivity|].
  cbn [dict_set map fst existsb]. rewrite (eqb_sym k k').
  destruct (PyStr.eqb k' k); cbn [map fst orb]; [reflexivity|].
  rewrite IH. now destruct (existsb (PyStr.eqb k) (map fst d)).
Qed.

Lemma keys_fold_store rs metrics :
  keys (fold_left store rs metrics) = fold_left add_key (map fst rs) (keys metrics).
Proof.
  revert metrics; induction rs as [|[cid [[a b] c]] rs IH]; intros metrics;
    [reflexivity|].
  cbn [fold_left map fst]. rewrite IH. unfold store. now rewrite keys_dict_set.
Qed.

Lemma dict_set_not_nil {V : Type} (d : dict V) (k : str) (v : V) : dict_set d k v <> [].
Proof.
  destruct d as [|[k' v'] d]; cbn [dict_set]; [discriminate|].
  destruct (PyStr.eqb k' k); discriminate.
Qed.

Lemma fold_store_not_nil rs metrics : metrics <> [] -> fold_left store rs metrics <> [].
Proof.
  revert metrics; induction rs as [|[cid [[a b] c]] rs IH]; intros metrics H;
    [exact H|].
  cbn [fold_left]. apply IH. apply dict_set_not_nil.
Qed.

(** X6.  The customers of the result are the identifiers of the accepted
    lines, each once, in the order in which they first appear; the result
    is empty exactly when no line is accepted (empty input, headers only,
    malformed lines only). *)
Theorem parse_keys_first_seen (py : Interp) (text : str) :
  exists lines metrics,
    csv_lines text = Ok lines
    /\ parse_csv_metrics py text = Ok metrics
    /\ keys metrics = first_seen (map fst (records py lines))
    /\ NoDup (keys metrics)
    /\ (metrics = [] <-> records py lines = []).
Proof.
  destruct (csv_lines_returns text) as [lines Hlines].
  exists lines, (fold_left store (records py lines) []).
  assert (Hp : for_each (parse_line py) lines []
               = Ok (fold_left store (records py lines) []))
    by apply for_each_parse_fold.
  rewrite (parse_csv_metrics_unfold py text lines Hlines).
  split; [exact Hlines|]. split; [exact Hp|].
  split; [apply keys_fold_store|].
  split.
  - apply (for_each_parse_NoDup py lines [] _); [constructor | exact Hp].
  - split.
    + destruct (records py lines) as [|[cid [[a b] c]] rs]; [reflexivity|].
      cbn [fold_left]. intros H. exfalso. revert H.
      apply fold_store_not_nil. apply dict_set_not_nil.
    + intros ->. reflexivity.
Qed.

(** *** Stripped text *)

Definition no_leading_space (s : str) : Prop :=
  match s with
  | [] => True
  | c :: _ => isspace c = false
  end.

Lemma lstrip_no_leading_space s : no_leading_space (lstrip s).
Proof.
  induction s as [|c s IH]; cbn [lstrip]; [exact I|].
  destruct (isspace c) eqn:E; [exact IH | exact E].
Qed.

Lemma lstrip_fixed s : no_leading_space s -> lstrip s = s.
Proof. destruct s as [|c s]; cbn; [reflexivity | now intros ->]. Qed.

Lemma lstrip_snoc l c :
  isspace c = false -> exists l', lstrip (l ++ [c]) = l' ++ [c].
Proof.
  intros Hc. induction l as [|d l IH]; cbn [app lstrip].
  - rewrite Hc. now exists [].
  - destruct (isspace d); [exact IH | now exists (d :: l)].
Qed.

Lemma rstrip_keeps_head s : no_leading_space s -> no_leading_space (rstrip s).
Proof.
  destruct s as [|c s]; [intros _; exact I|].
  cbn [no_leading_space]. intros Hc. unfold rstrip. cbn [rev].
  destruct (lstrip_snoc (rev s) c Hc) as [l' ->].
  rewrite rev_app_distr. exact Hc.
Qed.

Lemma rstrip_rstrip s : rstrip (rstrip s) = rstrip s.
Proof.
  unfold rstrip. rewrite rev_involutive.
  now rewrite (lstrip_fixed _ (lstrip_no_leading_space (rev s))).
Qed.

(** [strip] leaves stripped text alone. *)
Lemma strip_strip s : strip (strip s) = strip s.
Proof.
  unfold strip.
  rewrite (lstrip_fixed (rstrip (lstrip s))).
  - apply rstrip_rstrip.
  - apply rstrip_keeps_head, lstrip_no_leading_space.
Qed.

Lemma line_record_shape py line cid a b c :
  line_record py line = Some (cid, (a, b, c)) -> strip cid = cid.
Proof.
  intros H. apply line_record_data in H
    as (_ & _ & f0 & f1 & f2 & f3 & rest & _ & -> & _).
  apply strip_strip.
Qed.

Lemma dict_set_Forall {V : Type} (P : str * V -> Prop) (d : dict V) (k : str) (v : V) :
  Forall P d -> P (k, v) -> (forall k', PyStr.eqb k' k = true -> P (k', v)) ->
  Forall P (dict_set d k v).
Proof.
  intros Hd Hkv Hsame. induction Hd as [|[k' v'] d Hx Hd' IH]; cbn [dict_set].
  - constructor; [exact Hkv | constructor].
  - destruct (PyStr.eqb k' k) eqn:E.
    + constructor; [now apply Hsame | assumption].
    + constructor; assumption.
Qed.

(** An entry as the parser builds it: a stripped identifier and the
    three metrics, in the fixed order, with integer values. *)
Definition parsed_entry (item : str * dict pynum) : Prop :=
  strip (fst item) = fst item
  /\ exists a b c, snd item = metric_record a b c.

Lemma fold_store_parsed py lines :
  Forall parsed_entry (fold_left store (records py lines) []).
Proof.
  assert (Hrs : Forall (fun r => strip (fst r) = fst r) (records py lines)).
  { unfold records. induction lines as [|line lines IH]; cbn [flat_map];
      [constructor|].
    destruct (line_record py line) as [[cid [[a b] c]]|] eqn:E; [|exact IH].
    constructor; [|exact IH]. exact (line_record_shape py line cid a b c E). }
  assert (Hgen : forall rs metrics,
             Forall (fun r => strip (fst r) = fst r) rs ->
             Forall parsed_entry metrics ->
             Forall parsed_entry (fold_left store rs metrics)).
  { induction rs as [|[cid [[a b] c]] rs IH]; intros metrics Hr Hm; [exact Hm|].
    inversion Hr as [|? ? Hcid Hrs']; subst. cbn [fold_left]. apply IH; [exact Hrs'|].
    unfold store. apply dict_set_Forall; [exact Hm | |].
    - split; [exact Hcid | now exists a, b, c].
    - intros k' Hk. apply eqb_eq in Hk. subst k'.
      split; [exact Hcid | now exists a, b, c]. }
  apply Hgen; [exact Hrs | constructor].
Qed.

(** X7.  Every entry of the result has a customer identifier without
    surrounding blanks and a record with exactly the three metrics
    ['negative_accum_count'], ['match_rate_percent'] and
    ['referral_capture_rate_percent'], in this order, each an [int]. *)
Theorem parse_entries_shape (py : Interp) (text : str) :
  exists metrics,
    parse_csv_metrics py text = Ok metrics /\ Forall parsed_entry metrics.
Proof.
  destruct (parse_is_a_fold_lines py text) as (lines & Hp).
  eexists. split; [exact Hp|]. apply fold_store_parsed.
Qed.

(** ** The fenced block *)

Definition no_backtick (s : str) : Prop := Forall (fun c => c <> 96%N) s.

Lemma startswith_self sep s : startswith (sep ++ s) sep = true.
Proof.
  induction sep as [|h t IH]; [reflexivity|].
  cbn [app startswith]. now rewrite N.eqb_refl.
Qed.

Lemma contains_at sep pre s : contains sep (pre ++ sep ++ s) = true.
Proof.
  induction pre as [|c pre IH]; cbn [app].
  - destruct (sep ++ s) eqn:E; cbn [contains]; rewrite <- E, startswith_self;
      reflexivity.
  - cbn [contains]. rewrite IH. apply orb_true_r.
Qed.

(** Text without the first character of the separator goes to the
    current piece. *)
Lemma split_go_prefix h t pre cur s :
  Forall (fun c => c <> h) pre ->
  split_go (h :: t) 0 cur (pre ++ s) = split_go (h :: t) 0 (rev pre ++ cur) s.
Proof.
  intros H. revert cur; induction H as [|c pre Hc _ IH]; intros cur; [reflexivity|].
  cbn [app split_go startswith].
  apply not_eq_sym in Hc. apply N.eqb_neq in Hc. rewrite Hc. cbn [andb].
  rewrite IH. cbn [rev]. now rewrite <- app_assoc.
Qed.

Lemma split_go_skip sep x cur s :
  split_go sep (length x) cur (x ++ s) = split_go sep 0 cur s.
Proof. induction x as [|c x IH]; [reflexivity | exact IH]. Qed.

(** At an occurrence of the separator the piece ends and the separator
    is passed over. *)
Lemma split_go_at h t cur s :
  split_go (h :: t) 0 cur ((h :: t) ++ s) = rev cur :: split_go (h :: t) 0 [] s.
Proof.
  cbn [app split_go].
  change (h :: t ++ s) with ((h :: t) ++ s). rewrite startswith_self.
  replace (length (h :: t) - 1) with (length t) by (cbn [length]; lia).
  now rewrite split_go_skip.
Qed.

Lemma split_first_occurrence h t pre s :
  Forall (fun c => c <> h) pre ->
  split (pre ++ (h :: t) ++ s) (h :: t) = pre :: split s (h :: t).
Proof.
  intros H. unfold split. rewrite (split_go_prefix h t pre [] _ H), split_go_at.
  now rewrite app_nil_r, rev_involutive.
Qed.

Lemma split_go_no_occurrence h t cur s :
  Forall (fun c => c <> h) s -> split_go (h :: t) 0 cur s = [rev cur ++ s].
Proof.
  intros H. rewrite <- (app_nil_r s) at 1.
  rewrite (split_go_prefix h t s cur [] H). cbn [split_go].
  now rewrite rev_app_distr, rev_involutive.
Qed.

Lemma split_no_occurrence h t s :
  Forall (fun c => c <> h) s -> split s (h :: t) = [s].
Proof. intros H. unfold split. now rewrite (split_go_no_occurrence h t [] s H). Qed.

Lemma startswith_cons c s h t :
  startswith (c :: s) (h :: t) = ((h =? c)%N && startswith s t).
Proof. reflexivity. Qed.

Lemma startswith_no_backtick s t : no_backtick s -> startswith s (96%N :: t) = false.
Proof.
  intros [|c s' Hc _]; [reflexivity|].
  rewrite startswith_cons. apply not_eq_sym in Hc. apply N.eqb_neq in Hc.
  now rewrite Hc.
Qed.

Lemma split_go_no_match sep c s cur :
  startswith (c :: s) sep = false ->
  split_go sep 0 cur (c :: s) = split_go sep 0 (c :: cur) s.
Proof. intros H. cbn [split_go]. now rewrite H. Qed.

Lemma split_go_match sep c s cur :
  startswith (c :: s) sep = true ->
  split_go sep 0 cur (c :: s) = rev cur :: split_go sep (length sep - 1) [] s.
Proof. intros H. cbn [split_go]. now rewrite H. Qed.

(** The first piece when the text is cut at the tagged marker: a closing
    marker that is not followed by [csv] is no tagged marker. *)
Lemma tagged_split_head body post :
  no_backtick body -> no_backtick post ->
  exists pieces,
    split (body ++ u "```" ++ post) (u "```csv")
    = (if startswith post (u "csv") then body else body ++ u "```" ++ post)
        :: pieces.
Proof.
  intros Hb Hp. unfold split.
  change (u "```csv") with (96 :: [96; 96; 99; 115; 118])%N.
  change (u "```") with [96; 96; 96]%N.
  change (u "csv") with [99; 115; 118]%N.
  rewrite (split_go_prefix _ _ body [] _ Hb). rewrite app_nil_r.
  cbn [app].
  destruct (startswith post [99; 115; 118]%N) eqn:E.
  - rewrite split_go_match
      by (rewrite !startswith_cons, E; reflexivity).
    rewrite rev_involutive. eauto.
  - rewrite split_go_no_match
      by (rewrite !startswith_cons, E; reflexivity).
    rewrite split_go_no_match
      by (rewrite !startswith_cons, (startswith_no_backtick post _ Hp); reflexivity).
    rewrite split_go_no_match
      by (rewrite !startswith_cons, (startswith_no_backtick post _ Hp); reflexivity).
    rewrite (split_go_no_occurrence 96%N [96; 96; 99; 115; 118]%N _ post Hp).
    cbn [rev]. rewrite <- !app_assoc. cbn [app]. rewrite rev_involutive. eauto.
Qed.

(** X8.  A block opened by the tagged marker is cut out of the reply:
    when the text before the marker, the block and the text after the
    closing marker hold no backtick, the parsed content is exactly the
    block; an opened block that is never closed runs to the end of the
    text. *)
Theorem fenced_block_is_extracted (pre body post : str) :
  no_backtick pre -> no_backtick body -> no_backtick post ->
  fenced (pre ++ u "```csv" ++ body ++ u "```" ++ post) = Ok body
  /\ fenced (pre ++ u "```csv" ++ body) = Ok body
  /\ csv_lines (pre ++ u "```csv" ++ body ++ u "```" ++ post)
     = Ok (split (strip body) nl).
Proof.
  intros Hpre Hbody Hpost.
  assert (Hplain : split body (u "```") = [body])
    by (apply (split_no_occurrence 96%N [96; 96]%N); exact Hbody).
  assert (H1 : fenced (pre ++ u "```csv" ++ body ++ u "```" ++ post) = Ok body).
  { unfold fenced. rewrite contains_at.
    change (u "```csv") with (96 :: [96; 96; 99; 115; 118])%N at 1 2.
    rewrite (split_first_occurrence _ _ pre _ Hpre).
    change (96 :: [96; 96; 99; 115; 118])%N with (u "```csv").
    destruct (tagged_split_head body post Hbody Hpost) as [pieces ->].
    cbn [getitem nth_error bind].
    destruct (startswith post (u "csv")).
    - rewrite Hplain. reflexivity.
    - change (u "```") with (96 :: [96; 96])%N.
      rewrite (split_first_occurrence _ _ body post Hbody). reflexivity. }
  split; [exact H1|]. split.
  - unfold fenced.
    rewrite <- (app_nil_r body) at 1. rewrite <- (app_nil_r body) at 2.
    rewrite (app_assoc (u "```csv") body []) at 1.
    rewrite <- (app_nil_r (pre ++ u "```csv" ++ body ++ [])).
    rewrite <- !app_assoc. rewrite contains_at.
    change (u "```csv") with (96 :: [96; 96; 99; 115; 118])%N.
    rewrite (split_first_occurrence _ _ pre _ Hpre).
    cbn [app]. rewrite app_nil_r.
    rewrite (split_no_occurrence 96%N _ body Hbody).
    cbn [getitem nth_error bind].
    change (u "```") with (96 :: [96; 96])%N.
    rewrite (split_no_occurrence 96%N _ body Hbody). reflexivity.
  - unfold csv_lines. rewrite H1. reflexivity.
Qed.

Ltac solve_no_backtick :=
  unfold no_backtick; vm_compute;
  repeat (apply Forall_cons; [discriminate|]); apply Forall_nil.

Lemma fenced_block_is_extracted_witness :
  fenced (u "Here is the data:" ++ nl ++ u "```csv" ++ (nl ++ u "C1,3,90,55" ++ nl)
          ++ u "```" ++ (nl ++ u "Done."))
  = Ok (nl ++ u "C1,3,90,55" ++ nl).
Proof.
  refine (proj1 (fenced_block_is_extracted
                   (u "Here is the data:" ++ nl)
                   (nl ++ u "C1,3,90,55" ++ nl)
                   (nl ++ u "Done.") _ _ _)).
  - solve_no_backtick.
  - solve_no_backtick.
  - solve_no_backtick.
Defined.

(** ** More on [evaluate_risks] *)

(** X9.  An evaluation is only ever built for one of the three known
    metrics: it carries the customer of its record, the value converted
    to [float], the pair the classifier returned, the title-cased display
    name and the description of that metric; the empty default of
    [risk_descriptions.get] is never used. *)
Theorem evaluation_fields_are_known (py : Interp) (cid name : str) (v : pynum)
  (e : RiskEvaluation) :
  evaluation py cid name v = Ok e ->
  known_metric name
  /\ customer_id e = cid
  /\ validate_float v = Ok (value e)
  /\ evaluate_risk_level name v = Ok (risk_level e, threshold_range e)
  /\ dict_get risk_descriptions name = Some (explanation e)
  /\ explanation e <> []
  /\ (name = negative_accum_count -> metric_name e = u "Negative Accum Count")
  /\ (name = match_rate_percent -> metric_name e = u "Match Rate Percent")
  /\ (name = referral_capture_rate_percent ->
      metric_name e = u "Referral Capture Rate Percent").
Proof.
  unfold evaluation.
  destruct (evaluate_risk_level name v) as [[level range]|] eqn:E; [|discriminate].
  cbn [bind]. destruct (validate_float v) as [fv|]; [|discriminate].
  cbn [bind]. intros H. injection H as <-.
  cbn [customer_id value risk_level threshold_range explanation metric_name].
  pose proof (evaluate_risk_level_ok_known name v _ E) as Hk.
  split; [exact Hk|]. split; [reflexivity|]. split; [reflexivity|].
  split; [reflexivity|].
  assert (Hd : dict_get risk_descriptions name
               = Some (dict_get_default risk_descriptions name [])
               /\ dict_get_default risk_descriptions name [] <> []).
  { destruct Hk as [-> | [-> | ->]];
      (split; [vm_compute; reflexivity | vm_compute; discriminate]). }
  split; [exact (proj1 Hd)|]. split; [exact (proj2 Hd)|].
  repeat split; intros ->; reflexivity.
Qed.

Lemma evaluation_fields_are_known_witness :
  exists e,
    evaluation ascii_interp (u "C1") match_rate_percent (PyInt 90) = Ok e
    /\ metric_name e = u "Match Rate Percent"
    /\ explanation e <> [].
Proof.
  destruct (evaluation ascii_interp (u "C1") match_rate_percent (PyInt 90))
    as [e|] eqn:E; [|vm_compute in E; discriminate E].
  exists e. split; [reflexivity|].
  destruct (evaluation_fields_are_known ascii_interp (u "C1") match_rate_percent
              (PyInt 90) e E) as (_ & _ & _ & _ & _ & He & _ & Hm & _).
  split; [exact (Hm eq_refl) | exact He].
Defined.

Lemma filter_concat_pieces py metrics ess :
  NoDup (keys metrics) ->
  Forall2 (fun item es => evaluated py (fst item) (snd item) es) metrics ess ->
  map (fun item => filter (fun e => PyStr.eqb (customer_id e) (fst item)) (concat ess))
    metrics = ess.
Proof.
  intros Hnd H. revert Hnd.
  induction H as [|[cid md] es metrics ess Hes Hrest IH]; intros Hnd; [reflexivity|].
  cbn [keys map fst] in Hnd. inversion Hnd as [|? ? Hnot Hnd']; subst.
  cbn [map concat fst]. f_equal.
  - rewrite filter_app.
    rewrite (filter_customer_same cid es (evaluated_customer_id py cid md es Hes)).
    rewrite (filter_concat_absent py cid metrics ess Hrest Hnot).
    apply app_nil_r.
  - rewrite <- (IH Hnd') at 1. apply map_ext_in.
    intros [cid' md'] Hin. cbn [fst]. rewrite filter_app.
    rewrite (filter_customer_other cid' cid es); [reflexivity | |].
    + intros ->. apply Hnot. unfold keys. apply in_map_iff. now exists (cid', md').
    + exact (evaluated_customer_id py cid md es Hes).
Qed.

(** X10.  The reports split the evaluation sequence: with one entry per
    customer, the [risks] of the reports, put end to end in the order of
    the reports, are the whole sequence [risk_evaluations], so every
    evaluation is listed under exactly one customer. *)
Theorem reports_partition_evaluations (py : Interp) (state state' : ComplianceState) :
  NoDup (keys (customer_metrics state)) ->
  evaluate_risks py state = Ok state' ->
  concat (map risks (customer_reports state')) = risk_evaluations state'
  /\ map report_customer_id (customer_reports state') = keys (customer_metrics state).
Proof.
  intros Hnd H.
  apply evaluate_risks_unfold in H as (ess & Hess & _ & ->).
  cbn [customer_reports risk_evaluations set_customer_reports set_risk_evaluations].
  split.
  - rewrite map_map. unfold customer_report, keys. cbn [risks]. rewrite map_map.
    now rewrite (filter_concat_pieces py _ ess Hnd Hess).
  - rewrite map_map. unfold customer_report. cbn [report_customer_id].
    apply map_id.
Qed.

Lemma reports_partition_evaluations_witness :
  exists state',
    evaluate_risks ascii_interp (set_customer_metrics initial_state sample_metrics)
      = Ok state'
    /\ concat (map risks (customer_reports state')) = risk_evaluations state'.
Proof.
  destruct (evaluate_risks ascii_interp
              (set_customer_metrics initial_state sample_metrics)) as [state'|] eqn:E;
    [|vm_compute in E; discriminate E].
  exists state'. split; [reflexivity|].
  refine (proj1 (reports_partition_evaluations ascii_interp
                   (set_customer_metrics initial_state sample_metrics) state' _ E)).
  repeat constructor. intros [].
Defined.

(** ** From the parser to the report *)

(** The value passes the [float] field of [RiskEvaluation]. *)
Definition fits_float (v : pynum) : bool :=
  match validate_float v with
  | Ok _ => true
  | Raise _ => false
  end.

Definition all_fit (metrics : dict (dict pynum)) : bool :=
  forallb (fun item => forallb (fun kv => fits_float (snd kv)) (snd item)) metrics.

(** What a completed run holds for one customer of a parsed mapping. *)
Definition three_evaluations (item : str * dict pynum) (report : CustomerRiskReport)
  : Prop :=
  report_customer_id report = fst item
  /\ length (risks report) = 3
  /\ high_risk_count report + medium_risk_count report + low_risk_count report = 3.

(** A reply of the knowledge base with an integer of 401 digits. *)
Definition huge_line : str := u "C1,1" ++ times 48%N 400 ++ u ",90,55".

Definition huge_services : Collaborators :=
  {| search_run := fun _ => Failed unreachable;
     requests_get := fun _ => Failed unreachable;
     retrieve_and_generate := fun _ => Returned (Some huge_line);
     model_invoke := fun _ => Returned narrative;
     date_u := u "Fri Nov  6 00:00:00 UTC 2026" ++ nl |}.

Lemma validate_float_raises v e : validate_float v = Raise e -> e = ValidationError.
Proof.
  destruct v as [z|f]; cbn [validate_float]; [|discriminate].
  destruct (float_of_int z); [discriminate|]. now intros [= <-].
Qed.

Lemma metric_loop_outcome py cid md acc :
  Forall (fun kv => known_metric (fst kv)) md ->
  if forallb (fun kv => fits_float (snd kv)) md
  then exists r, for_each (evaluate_metric py cid) md acc = Ok r
  else for_each (evaluate_metric py cid) md acc = Raise ValidationError.
Proof.
  intros H. revert acc; induction H as [|[name v] md Hk _ IH]; intros acc.
  - cbn. eauto.
  - cbn [forallb for_each evaluate_metric snd fst] in *. unfold evaluation, fits_float.
    destruct (evaluate_risk_level_known name v Hk) as (level & range & ->).
    cbn [bind].
    destruct (validate_float v) as [fv|e] eqn:Ev; cbn [bind andb].
    + apply IH.
    + now rewrite (validate_float_raises v e Ev).
Qed.

Lemma customer_loop_outcome py metrics acc :
  Forall (fun item => Forall (fun kv => known_metric (fst kv)) (snd item)) metrics ->
  if all_fit metrics
  then exists r, for_each (evaluate_customer py) metrics acc = Ok r
  else for_each (evaluate_customer py) metrics acc = Raise ValidationError.
Proof.
  intros H. revert acc; induction H as [|[cid md] metrics Hmd _ IH]; intros acc.
  - cbn. eauto.
  - unfold all_fit in *. cbn [forallb for_each evaluate_customer snd] in *.
    pose proof (metric_loop_outcome py cid md acc Hmd) as Hin.
    destruct (forallb (fun kv => fits_float (snd kv)) md); cbn [andb].
    + destruct Hin as [r ->]. cbn [bind]. apply IH.
    + rewrite Hin. reflexivity.
Qed.

Lemma three_names_known (n1 n2 n3 : str) (x y z : pynum) :
  n1 = negative_accum_count -> n2 = match_rate_percent ->
  n3 = referral_capture_rate_percent ->
  Forall (fun kv => known_metric (fst kv)) [(n1, x); (n2, y); (n3, z)].
Proof.
  intros -> -> ->. unfold known_metric.
  apply Forall_cons; [left; reflexivity|].
  apply Forall_cons; [right; left; reflexivity|].
  apply Forall_cons; [right; right; reflexivity|].
  apply Forall_nil.
Qed.

Lemma metric_record_known a b c :
  Forall (fun kv => known_metric (fst kv)) (metric_record a b c).
Proof.
  unfold metric_record. apply three_names_known.
  - unfold negative_accum_count. exact eq_refl.
  - unfold match_rate_percent. exact eq_refl.
  - unfold referral_capture_rate_percent. exact eq_refl.
Qed.

Lemma metric_record_no_nan a b c :
  Forall (fun kv => is_nan (snd kv) = false) (metric_record a b c).
Proof. repeat constructor. Qed.

Lemma parsed_entries_known metrics :
  Forall parsed_entry metrics ->
  Forall (fun item => Forall (fun kv => known_metric (fst kv)) (snd item)) metrics.
Proof.
  intros H. eapply Forall_impl; [|exact H].
  intros [cid md] (_ & a & b & c & Hmd). cbn [snd] in *. subst md.
  apply metric_record_known.
Qed.

(** The outcome of the aggregation stage on a mapping the parser built. *)
Lemma evaluate_risks_on_parsed py state :
  Forall parsed_entry (customer_metrics state) ->
  NoDup (keys (customer_metrics state)) ->
  if all_fit (customer_metrics state)
  then exists state',
         evaluate_risks py state = Ok state'
         /\ Forall2 three_evaluations (customer_metrics state) (customer_reports state')
  else evaluate_risks py state = Raise ValidationError.
Proof.
  intros Hp Hnd.
  pose proof (customer_loop_outcome py (customer_metrics state) []
                (parsed_entries_known _ Hp)) as Hloop.
  destruct (all_fit (customer_metrics state)).
  - destruct Hloop as [evals Hloop].
    assert (Hrun : exists state', evaluate_risks py state = Ok state').
    { unfold evaluate_risks. rewrite Hloop. cbn [bind]. eauto. }
    destruct Hrun as [state' Hrun]. exists state'. split; [exact Hrun|].
    apply evaluate_risks_unfold in Hrun as (ess & Hess & _ & ->).
    cbn [customer_reports set_customer_reports].
    unfold keys. rewrite map_map. apply Forall2_map_self.
    pose proof (filter_concat_own py _ ess Hnd Hess) as Hown.
    rewrite Forall_forall in Hown, Hp |- *.
    intros [cid md] Hin.
    specialize (Hown _ Hin). specialize (Hp _ Hin). cbn [fst snd] in *.
    destruct Hp as (_ & a & b & c & Hmd). cbn [snd] in Hmd. subst md.
    destruct (customer_report_rollup py cid _ _ Hown)
      as (Hid & Hlen & _ & _ & _ & _ & Hsum).
    unfold three_evaluations. cbn [fst].
    split; [exact Hid|]. split; [exact Hlen|].
    exact (Hsum (metric_record_no_nan a b c)).
  - unfold evaluate_risks. now rewrite Hloop.
Qed.

(** X11.  On a mapping built by the parser the aggregation stage never
    raises KeyError.  It returns when every integer fits a [float], and
    then each customer has exactly three evaluations and the three counts
    add up to 3; otherwise it raises the validation error of the [float]
    field. *)
Theorem aggregation_of_parsed_metrics (py : Interp) (text : str)
  (state : ComplianceState) :
  parse_csv_metrics py text = Ok (customer_metrics state) ->
  if all_fit (customer_metrics state)
  then exists state',
         evaluate_risks py state = Ok state'
         /\ Forall2 three_evaluations (customer_metrics state) (customer_reports state')
  else evaluate_risks py state = Raise ValidationError.
Proof.
  intros H. apply evaluate_risks_on_parsed.
  - destruct (parse_is_a_fold_lines py text) as (lines & Hp).
    rewrite Hp in H. injection H as <-. apply fold_store_parsed.
  - destruct (csv_lines_returns text) as [lines Hlines].
    rewrite (parse_csv_metrics_unfold py text lines Hlines) in H.
    apply (for_each_parse_NoDup py lines [] _); [constructor | exact H].
Qed.

Lemma aggregation_of_parsed_metrics_witness :
  exists state',
    evaluate_risks ascii_interp (set_customer_metrics initial_state sample_metrics)
      = Ok state'
    /\ Forall2 three_evaluations sample_metrics (customer_reports state').
Proof.
  exact (aggregation_of_parsed_metrics ascii_interp (u "C1,3,90,55")
           (set_customer_metrics initial_state sample_metrics) eq_refl).
Defined.

Lemma retrieve_customer_metrics_parsed py w state :
  Forall parsed_entry (customer_metrics (retrieve_customer_metrics py w state))
  /\ NoDup (keys (customer_metrics (retrieve_customer_metrics py w state))).
Proof.
  unfold retrieve_customer_metrics.
  destruct (retrieve_and_generate w metrics_request) as [response|];
    [|split; constructor].
  destruct (parse_csv_metrics py (output_text response)) as [metrics|] eqn:E;
    [|split; constructor].
  cbn [customer_metrics set_customer_metrics]. split.
  - destruct (parse_is_a_fold_lines py (output_text response)) as (lines & Hp).
    rewrite Hp in E. injection E as <-. apply fold_store_parsed.
  - destruct (csv_lines_returns (output_text response)) as [lines Hlines].
    rewrite (parse_csv_metrics_unfold py _ lines Hlines) in E.
    apply (for_each_parse_NoDup py lines [] _); [constructor | exact E].
Qed.

(** X12.  The outcome of a whole run, whatever the services do.  The
    metrics the first node stores decide it: when every parsed integer
    fits a [float] the run completes with a non-empty report, one report
    per customer in the order of the mapping, each with three evaluations
    and counts adding up to 3; otherwise the run ends in the validation
    error raised by the aggregation stage.  No other exception leaves the
    workflow. *)
Theorem workflow_outcome (py : Interp) (w : Collaborators) (state : ComplianceState) :
  if all_fit (customer_metrics (retrieve_customer_metrics py w state))
  then exists state',
         workflow py w state = Ok state'
         /\ customer_metrics state'
            = customer_metrics (retrieve_customer_metrics py w state)
         /\ Forall2 three_evaluations (customer_metrics state') (customer_reports state')
         /\ final_report state'
            = report_with py w state' (executive_summary py w state')
         /\ final_report state' <> []
  else workflow py w state = Raise ValidationError.
Proof.
  unfold workflow.
  set (s1 := retrieve_customer_metrics py w state).
  set (s2 := retrieve_knowledge_base w s1).
  assert (Hm : customer_metrics s2 = customer_metrics s1).
  { unfold s2, retrieve_knowledge_base.
    destruct (retrieve_and_generate w knowledge_request); reflexivity. }
  destruct (retrieve_customer_metrics_parsed py w state) as [Hp Hnd].
  fold s1 in Hp, Hnd. rewrite <- Hm in Hp, Hnd.
  pose proof (evaluate_risks_on_parsed py s2 Hp Hnd) as Hrun.
  rewrite Hm in Hrun.
  destruct (all_fit (customer_metrics s1)).
  - destruct Hrun as (s3 & Hrun & Hreports). rewrite Hrun. cbn [bind].
    set (s4 := search_regulatory_updates py w s3).
    destruct (evaluate_risks_frame py s2 s3 Hrun) as (_ & _ & Hm3).
    destruct (search_regulatory_updates_frame py w s3) as (Hm4 & _ & _ & Hr4 & _).
    fold s4 in Hm4, Hr4.
    destruct (generate_report_frame py w s4) as (Hm5 & Hk5 & _ & Hr5 & Hu5).
    assert (Hlayout : final_report (generate_report py w s4)
                      = report_with py w (generate_report py w s4)
                          (executive_summary py w (generate_report py w s4))).
    { rewrite generate_report_layout.
      rewrite (report_with_reads py w s4 (generate_report py w s4) _ Hr5 Hu5).
      unfold executive_summary.
      now rewrite (summary_prompt_reads py s4 (generate_report py w s4) Hr5 Hk5 Hu5). }
    eexists. split; [reflexivity|].
    split; [now rewrite Hm5, Hm4, Hm3|].
    split; [rewrite Hm5, Hm4, Hm3, Hr5, Hr4, Hm; exact Hreports|].
    split; [exact Hlayout|].
    rewrite Hlayout. apply report_with_not_empty.
  - now rewrite Hrun.
Qed.

(** X13.  An integer the parser accepts can be too large for the [float]
    field ([int] takes up to 4300 digits, a [float] ends near 1.8e308):
    when the reply of the knowledge base holds such a data line, the run
    ends in the validation error and no report is produced. *)
Theorem oversized_integer_ends_the_run (py : Interp) (w : Collaborators)
  (state : ComplianceState) (response : option str) (metrics : dict (dict pynum)) :
  retrieve_and_generate w metrics_request = Returned response ->
  parse_csv_metrics py (output_text response) = Ok metrics ->
  all_fit metrics = false ->
  workflow py w state = Raise ValidationError.
Proof.
  intros Hr Hp Hfit.
  assert (Hm : customer_metrics (retrieve_customer_metrics py w state) = metrics).
  { unfold retrieve_customer_metrics. rewrite Hr, Hp. reflexivity. }
  assert (Hparsed : Forall parsed_entry metrics /\ NoDup (keys metrics)).
  { rewrite <- Hm. apply retrieve_customer_metrics_parsed. }
  unfold workflow.
  set (s2 := retrieve_knowledge_base w (retrieve_customer_metrics py w state)).
  assert (Hm2 : customer_metrics s2 = metrics).
  { rewrite <- Hm. unfold s2, retrieve_knowledge_base.
    destruct (retrieve_and_generate w knowledge_request); reflexivity. }
  destruct Hparsed as [Hpe Hnd]. rewrite <- Hm2 in Hpe, Hnd, Hfit.
  pose proof (evaluate_risks_on_parsed py s2 Hpe Hnd) as Hrun.
  rewrite Hfit in Hrun. now rewrite Hrun.
Qed.

Lemma oversized_integer_ends_the_run_witness :
  workflow ascii_interp huge_services initial_state = Raise ValidationError.
Proof.
  destruct (parse_csv_metrics ascii_interp huge_line) as [metrics|] eqn:E;
    [|vm_compute in E; discriminate E].
  refine (oversized_integer_ends_the_run ascii_interp huge_services initial_state
            (Some huge_line) metrics eq_refl E _).
  vm_compute in E. injection E as <-. vm_compute. reflexivity.
Defined.

(** ** The search chain *)

(** The three texts the HTML fallback can return for a query. *)
Definition found_message (query : str) : str :=
  u "DuckDuckGo results for '" ++ query
  ++ u "': Found relevant 340B compliance information online." ++ nl
  ++ u "Key topics include: program management, diversion prevention, patient eligibility, and regulatory compliance.".

Definition completed_message (query : str) : str :=
  u "DuckDuckGo search for '" ++ query
  ++ u "' completed. Regulatory updates and guidance available online.".

Definition retrieved_message (query : str) : str :=
  u "Search results for '" ++ query ++ u "' retrieved from regulatory databases.".

Definition default_guidance : str :=
  u "Regulatory context: Continuous monitoring of compliance metrics is essential for 340B program integrity.".

Lemma canned_guidance_cases py suggestions query :
  canned_guidance py suggestions query = default_guidance
  \/ In (canned_guidance py suggestions query) (map snd suggestions).
Proof.
  unfold default_guidance.
  induction suggestions as [|[key guidance] rest IH]; cbn [canned_guidance map snd].
  - left. exact eq_refl.
  - destruct (contains (lower py key) (lower py query)).
    + right. left. reflexivity.
    + destruct IH as [IH | IH]; [left; exact IH | right; right; exact IH].
Qed.

Lemma scrape_cases py w query results :
  scrape py w query = Returned results ->
  results = found_message query \/ results = completed_message query
  \/ results = retrieved_message query.
Proof.
  unfold scrape, found_message, completed_message, retrieved_message.
  destruct (quote py query) as [quoted|]; [|discriminate].
  destruct (requests_get w (u "https://html.duckduckgo.com/?q=" ++ quoted))
    as [[status_code text]|]; [|discriminate].
  destruct (status_code =? 200)%Z.
  - destruct (contains (u "340B") text || contains (u "compliance") (lower py text));
      intros H; injection H as <-; [left | right; left]; exact eq_refl.
  - intros H; injection H as <-. right; right; exact eq_refl.
Qed.

(** X14.  The search never raises, and when the tool fails its result is
    one of a fixed set of texts: one of the three messages of the HTML
    fallback, built from the query alone, or one of the canned guidance
    texts.  The page the fallback fetches is only tested, never returned. *)
Theorem duckduckgo_search_results (py : Interp) (w : Collaborators) (query : str) :
  exists results,
    duckduckgo_search py w query = Returned results
    /\ (search_run w query = Returned results
        \/ (exists message, search_run w query = Failed message)
           /\ (results = found_message query
               \/ results = completed_message query
               \/ results = retrieved_message query
               \/ results = default_guidance
               \/ In results (map snd regulatory_suggestions))).
Proof.
  unfold duckduckgo_search.
  destruct (search_run w query) as [tool|message] eqn:Et.
  - exists tool. split; [reflexivity | left; reflexivity].
  - destruct (scrape py w query) as [page|message'] eqn:Es.
    + exists page. split; [reflexivity|]. right. split; [now exists message|].
      destruct (scrape_cases py w query page Es) as [H | [H | H]];
        [left | right; left | right; right; left]; exact H.
    + eexists. split; [reflexivity|]. right. split; [now exists message|].
      destruct (canned_guidance_cases py regulatory_suggestions query) as [H | H];
        [right; right; right; left | right; right; right; right]; exact H.
Qed.

(** X15.  The regulatory context always holds the three fixed queries,
    in order, each labelled "Query: " and followed by what the search
    returned for it; the "Search failed" branch is never taken, the text is
    never empty and no other field of the state changes. *)
Theorem regulatory_context_shape (py : Interp) (w : Collaborators)
  (state : ComplianceState) :
  exists r1 r2 r3,
    duckduckgo_search py w (u "340B program compliance risks 2025 2026") = Returned r1
    /\ duckduckgo_search py w
         (u "healthcare diversion compliance negative accumulation") = Returned r2
    /\ duckduckgo_search py w
         (u "patient eligibility matching audit requirements") = Returned r3
    /\ regulatory_updates (search_regulatory_updates py w state)
       = (u "Query: " ++ u "340B program compliance risks 2025 2026" ++ nl ++ r1 ++ nl)
         ++ nl
         ++ (u "Query: " ++ u "healthcare diversion compliance negative accumulation"
             ++ nl ++ r2 ++ nl)
         ++ nl
         ++ (u "Query: " ++ u "patient eligibility matching audit requirements"
             ++ nl ++ r3 ++ nl)
    /\ regulatory_updates (search_regulatory_updates py w state) <> []
    /\ customer_metrics (search_regulatory_updates py w state) = customer_metrics state
    /\ knowledge_base (search_regulatory_updates py w state) = knowledge_base state
    /\ risk_evaluations (search_regulatory_updates py w state) = risk_evaluations state
    /\ customer_reports (search_regulatory_updates py w state) = customer_reports state
    /\ final_report (search_regulatory_updates py w state) = final_report state.
Proof.
  destruct (duckduckgo_search_returns py w
              (u "340B program compliance risks 2025 2026")) as [r1 H1].
  destruct (duckduckgo_search_returns py w
              (u "healthcare diversion compliance negative accumulation")) as [r2 H2].
  destruct (duckduckgo_search_returns py w
              (u "patient eligibility matching audit requirements")) as [r3 H3].
  exists r1, r2, r3.
  assert (Hreg : regulatory_updates (search_regulatory_updates py w state)
       = (u "Query: " ++ u "340B program compliance risks 2025 2026" ++ nl ++ r1 ++ nl)
         ++ nl
         ++ (u "Query: " ++ u "healthcare diversion compliance negative accumulation"
             ++ nl ++ r2 ++ nl)
         ++ nl
         ++ (u "Query: " ++ u "patient eligibility matching audit requirements"
             ++ nl ++ r3 ++ nl)).
  { unfold search_regulatory_updates.
    cbn [regulatory_updates set_regulatory_updates].
    unfold search_queries. cbn [fold_left]. unfold search_one.
    rewrite H1, H2, H3. cbn [app join]. reflexivity. }
  split; [exact H1|]. split; [exact H2|]. split; [exact H3|].
  split; [exact Hreg|]. split.
  - rewrite Hreg. change (u "Query: ") with (81 :: u "uery: ")%N.
    cbn [app]. discriminate.
  - unfold search_regulatory_updates. repeat split.
Qed.

(** ** More on the parsed content *)

Lemma contains_head_absent h t s :
  Forall (fun c => c <> h) s -> contains (h :: t) s = false.
Proof.
  induction 1 as [|c s Hc _ IH]; [reflexivity|].
  cbn [contains]. rewrite startswith_cons, IH.
  apply not_eq_sym in Hc. apply N.eqb_neq in Hc. now rewrite Hc.
Qed.

Lemma startswith_grow p a b : startswith a p = true -> startswith (a ++ b) p = true.
Proof.
  revert a; induction p as [|x p IH]; intros a; [reflexivity|].
  destruct a as [|y a]; [discriminate|].
  cbn [app]. rewrite !startswith_cons. intros H.
  apply andb_true_iff in H as [H1 H2]. rewrite H1. cbn [andb]. now apply IH.
Qed.

Lemma contains_grow h t a b :
  contains (h :: t) a = true -> contains (h :: t) (a ++ b) = true.
Proof.
  induction a as [|c a IH]; [discriminate|].
  cbn [app contains]. intros H. apply orb_true_iff in H as [H | H].
  - change (c :: a ++ b) with ((c :: a) ++ b).
    now rewrite (startswith_grow (h :: t) (c :: a) b H).
  - rewrite (IH H). apply orb_true_r.
Qed.

(** X16.  The untagged marker: when the text holds no tagged marker, the
    text before the first marker and the block hold no backtick, the
    parsed content is exactly the block, whatever follows the closing
    marker; a block that is never closed runs to the end of the text. *)
Theorem plain_fenced_block_is_extracted (pre body post : str) :
  no_backtick pre -> no_backtick body ->
  contains (u "```csv") (pre ++ u "```" ++ body ++ u "```" ++ post) = false ->
  fenced (pre ++ u "```" ++ body ++ u "```" ++ post) = Ok body
  /\ fenced (pre ++ u "```" ++ body) = Ok body.
Proof.
  intros Hpre Hbody Htag.
  assert (Hplain : split body (u "```") = [body])
    by (apply (split_no_occurrence 96%N [96; 96]%N); exact Hbody).
  split.
  - unfold fenced. rewrite Htag, contains_at.
    change (u "```") with (96 :: [96; 96])%N.
    rewrite (split_first_occurrence _ _ pre _ Hpre).
    rewrite (split_first_occurrence _ _ body post Hbody).
    cbn [getitem nth_error bind].
    change (96 :: [96; 96])%N with (u "```"). now rewrite Hplain.
  - assert (Hno : contains (u "```csv") (pre ++ u "```" ++ body) = false).
    { destruct (contains (u "```csv") (pre ++ u "```" ++ body)) eqn:E; [|reflexivity].
      change (u "```csv") with (96 :: [96; 96; 99; 115; 118])%N in E, Htag.
      apply (contains_grow _ _ _ (u "```" ++ post)) in E.
      rewrite <- !app_assoc in E.
      exfalso. exact (diff_true_false (eq_trans (eq_sym E) Htag)). }
    assert (Hin : contains (u "```") (pre ++ u "```" ++ body) = true)
      by apply contains_at.
    unfold fenced. rewrite Hno, Hin.
    change (u "```") with (96 :: [96; 96])%N.
    rewrite (split_first_occurrence _ _ pre _ Hpre).
    rewrite (split_no_occurrence 96%N _ body Hbody).
    cbn [getitem nth_error bind].
    now rewrite (split_no_occurrence 96%N _ body Hbody).
Qed.

Lemma plain_fenced_block_is_extracted_witness :
  fenced (u "Data:" ++ nl ++ u "```" ++ (nl ++ u "C1,3,90,55" ++ nl)
          ++ u "```" ++ u " done")
  = Ok (nl ++ u "C1,3,90,55" ++ nl).
Proof.
  refine (proj1 (plain_fenced_block_is_extracted
                   (u "Data:" ++ nl) (nl ++ u "C1,3,90,55" ++ nl) (u " done")
                   _ _ _)).
  - solve_no_backtick.
  - solve_no_backtick.
  - vm_compute. reflexivity.
Defined.

(** *** Blanks around a line *)

Lemma lstrip_spaces ws s : forallb isspace ws = true -> lstrip (ws ++ s) = lstrip s.
Proof.
  induction ws as [|c ws IH]; [reflexivity|].
  cbn [forallb app lstrip]. intros H. apply andb_true_iff in H as [Hc Hws].
  rewrite Hc. now apply IH.
Qed.

Lemma lstrip_app_keep s t : lstrip s <> [] -> lstrip (s ++ t) = lstrip s ++ t.
Proof.
  induction s as [|c s IH]; [contradiction|].
  cbn [app lstrip]. destruct (isspace c); [exact IH | reflexivity].
Qed.

Lemma lstrip_app_blank s t : lstrip s = [] -> lstrip (s ++ t) = lstrip t.
Proof.
  induction s as [|c s IH]; [reflexivity|].
  cbn [app lstrip]. destruct (isspace c); [exact IH | discriminate].
Qed.

Lemma forallb_rev {A : Type} (p : A -> bool) (l : list A) :
  forallb p l = true -> forallb p (rev l) = true.
Proof.
  rewrite !forallb_forall. intros H x Hin. apply H. now apply in_rev.
Qed.

Lemma rstrip_spaces s ws : forallb isspace ws = true -> rstrip (s ++ ws) = rstrip s.
Proof.
  intros H. unfold rstrip. rewrite rev_app_distr.
  now rewrite (lstrip_spaces (rev ws) (rev s) (forallb_rev isspace ws H)).
Qed.

Lemma lstrip_blank ws : forallb isspace ws = true -> lstrip ws = [].
Proof.
  intros H. rewrite <- (app_nil_r ws). now rewrite (lstrip_spaces ws [] H).
Qed.

(** Blanks on either side do not change what [strip] returns. *)
Lemma strip_padding ws s ws' :
  forallb isspace ws = true -> forallb isspace ws' = true ->
  strip (ws ++ s ++ ws') = strip s.
Proof.
  intros H H'. unfold strip. rewrite (lstrip_spaces ws _ H).
  destruct (lstrip s) as [|c l] eqn:E.
  - rewrite (lstrip_app_blank s ws' E), (lstrip_blank ws' H'). reflexivity.
  - rewrite lstrip_app_keep by (rewrite E; discriminate).
    rewrite E. now apply rstrip_spaces.
Qed.

(** X17.  Blanks around a line do not matter: a line with indentation in
    front or with blanks behind it, such as the carriage return left by a
    CRLF line ending, changes the mapping exactly as the bare line does. *)
Theorem line_padding_is_ignored (py : Interp) (metrics : dict (dict pynum))
  (ws line ws' : str) :
  forallb isspace ws = true ->
  forallb isspace ws' = true ->
  parse_line py metrics (ws ++ line ++ ws') = parse_line py metrics line.
Proof.
  intros H H'. unfold parse_line. now rewrite (strip_padding ws line ws' H H').
Qed.

Lemma line_padding_is_ignored_witness :
  parse_line ascii_interp [] (u "  " ++ u "C1,3,90,55" ++ [13%N])
  = parse_line ascii_interp [] (u "C1,3,90,55").
Proof.
  exact (line_padding_is_ignored ascii_interp [] (u "  ") (u "C1,3,90,55") [13%N]
           eq_refl eq_refl).
Defined.
